(** * Shared grocery list: week resolution, item operations and the
      current-week query, embedded from the TypeScript handlers.

    Layout of the development:
    - [JsDate]   : the part of the ECMAScript [Date] object the handlers use;
    - [Zod]      : the validation combinators used by [schema.ts];
    - the tables of [db/schema.ts] as records, and the store;
    - the handler monad (store threading, a [throw] keeps the store);
    - the handlers, line by line;
    - the properties. *)

From Stdlib Require Import ZArith List String Ascii Bool Lia.
From Stdlib Require Import DecimalString.
From Stdlib Require Import Sorted Permutation.
Import ListNotations.
Local Open Scope Z_scope.
Set Warnings "-register-all".

(* ================================================================== *)
(** ** ECMAScript dates *)

(** A [Date] is its time value: milliseconds since 1970-01-01T00:00Z.
    The abstract operations ([Day], [TimeWithinDay], [WeekDay], [MakeTime],
    [MakeDate]) are those of the language definition.  In this module the
    host's local zone is a fixed offset [tz] (milliseconds east of UTC);
    [HostZone] below has the same methods for a zone whose offset changes
    (daylight saving). *)
Module JsDate.

Definition msPerDay : Z := 86400000.

Definition Day (t : Z) : Z := t / msPerDay.
Definition TimeWithinDay (t : Z) : Z := t mod msPerDay.
Definition WeekDay (t : Z) : Z := (Day t + 4) mod 7.

Definition MakeTime (h m s ms : Z) : Z :=
  h * 3600000 + m * 60000 + s * 1000 + ms.
Definition MakeDate (day time : Z) : Z := day * msPerDay + time.

(** Day of the month (1..31) of a day number, by the usual era/day-of-era
    decomposition of the proleptic Gregorian calendar. *)
Definition DateOfDay (d : Z) : Z :=
  let z := d + 719468 in
  let era := z / 146097 in
  let doe := z - era * 146097 in
  let yoe := (doe - doe / 1460 + doe / 36524 - doe / 146096) / 365 in
  let doy := doe - (365 * yoe + yoe / 4 - yoe / 100) in
  let mp := (5 * doy + 2) / 153 in
  doy - (153 * mp + 2) / 5 + 1.

Definition DateFromTime (t : Z) : Z := DateOfDay (Day t).

Section LocalZone.
Variable tz : Z.

Definition LocalTime (t : Z) : Z := t + tz.
Definition UTC (t : Z) : Z := t - tz.

(** [d.getDay()] : 0 = Sunday, 1 = Monday, ..., 6 = Saturday. *)
Definition getDay (t : Z) : Z := WeekDay (LocalTime t).

(** [d.getDate()] : local day of the month. *)
Definition getDate (t : Z) : Z := DateFromTime (LocalTime t).

(** [d.setDate(dt)] : [MakeDay(year, month, dt)] is the day number of the
    first of the local month plus [dt - 1], that is the local day number
    moved by [dt - getDate d]; the time within the day is kept. *)
Definition setDate (t dt : Z) : Z :=
  let lt := LocalTime t in
  UTC (MakeDate (Day lt - DateFromTime lt + dt) (TimeWithinDay lt)).

(** [d.setHours(h, m, s, ms)] : same local day, new time within the day. *)
Definition setHours (t h m s ms : Z) : Z :=
  UTC (MakeDate (Day (LocalTime t)) (MakeTime h m s ms)).
End LocalZone.

(** [d.toISOString().split('T')[0]] : the calendar date of [d] in UTC.  A
    calendar date (also the content of a [date] column) is represented by
    its day number, of which the text YYYY-MM-DD is a one-to-one rendering;
    equality and order of dates are equality and order of day numbers. *)
Definition toISODate (t : Z) : Z := Day t.

End JsDate.

(* ================================================================== *)
(** ** Week resolution: the two server call sites *)

Section WeekResolution.
Variable tz : Z.
Let getDay := JsDate.getDay tz.
Let getDate := JsDate.getDate tz.
Let setDate := JsDate.setDate tz.
Let setHours := JsDate.setHours tz.

(** add_grocery_item.ts, [getCurrentWeekStart]; [now] is [new Date()]. *)
Definition getCurrentWeekStart (now : Z) : Z :=
  let dayOfWeek := getDay now in
  let mondayOffset := if dayOfWeek =? 0 then -6 else 1 - dayOfWeek in
  let monday := now in
  let monday := setDate monday (getDate now + mondayOffset) in
  let monday := setHours monday 0 0 0 0 in
  monday.

(** get_current_week_list handler, the first block: [currentWeekStart]. *)
Definition currentWeekStart (now : Z) : Z :=
  let dayOfWeek := getDay now in
  let daysToMonday := if dayOfWeek =? 0 then 6 else dayOfWeek - 1 in
  let currentWeekStart := now in
  let currentWeekStart := setDate currentWeekStart (getDate now - daysToMonday) in
  let currentWeekStart := setHours currentWeekStart 0 0 0 0 in
  currentWeekStart.

(** get_current_week_list handler, the second block: [currentWeekEnd]. *)
Definition currentWeekEnd (now : Z) : Z :=
  let currentWeekStart := currentWeekStart now in
  let currentWeekEnd := currentWeekStart in
  let currentWeekEnd := setDate currentWeekEnd (getDate currentWeekStart + 6) in
  let currentWeekEnd := setHours currentWeekEnd 23 59 59 999 in
  currentWeekEnd.

Definition weekStartStr (now : Z) : Z := JsDate.toISODate (currentWeekStart now).
Definition weekEndStr (now : Z) : Z := JsDate.toISODate (currentWeekEnd now).
End WeekResolution.

(* ================================================================== *)
(** ** Week resolution on a host whose offset changes *)

(** The language definition reaches the host's zone through one function,
    [LocalTZA(t, isUTC)]: the offset (milliseconds east of UTC) in force at
    the instant [t] when [isUTC] is true, and the offset by which the local
    time value [t] is to be read when it is false (a local time that a
    transition skips or repeats is read with the offset before the
    transition).  [LocalTime] and [UTC] and the [Date] methods are defined
    from it as in [JsDate], and the week computations are the text of the
    two call sites again. *)
Module HostZone.

Record Zone : Type := mkZone { LocalTZA : Z -> bool -> Z }.

(** A zone without transitions. *)
Definition fixed (offset : Z) : Zone := mkZone (fun _ _ => offset).

Section Methods.
Variable zone : Zone.

Definition LocalTime (t : Z) : Z := t + LocalTZA zone t true.
Definition UTC (t : Z) : Z := t - LocalTZA zone t false.

Definition getDay (t : Z) : Z := JsDate.WeekDay (LocalTime t).

Definition getDate (t : Z) : Z := JsDate.DateFromTime (LocalTime t).

Definition setDate (t dt : Z) : Z :=
  let lt := LocalTime t in
  UTC (JsDate.MakeDate (JsDate.Day lt - JsDate.DateFromTime lt + dt)
         (JsDate.TimeWithinDay lt)).

Definition setHours (t h m s ms : Z) : Z :=
  UTC (JsDate.MakeDate (JsDate.Day (LocalTime t)) (JsDate.MakeTime h m s ms)).

(** add_grocery_item.ts, [getCurrentWeekStart]. *)
Definition getCurrentWeekStart (now : Z) : Z :=
  let dayOfWeek := getDay now in
  let mondayOffset := if dayOfWeek =? 0 then -6 else 1 - dayOfWeek in
  let monday := now in
  let monday := setDate monday (getDate now + mondayOffset) in
  let monday := setHours monday 0 0 0 0 in
  monday.

(** get_current_week_list handler, [currentWeekStart] and [currentWeekEnd]. *)
Definition currentWeekStart (now : Z) : Z :=
  let dayOfWeek := getDay now in
  let daysToMonday := if dayOfWeek =? 0 then 6 else dayOfWeek - 1 in
  let currentWeekStart := now in
  let currentWeekStart := setDate currentWeekStart (getDate now - daysToMonday) in
  let currentWeekStart := setHours currentWeekStart 0 0 0 0 in
  currentWeekStart.

Definition currentWeekEnd (now : Z) : Z :=
  let currentWeekStart := currentWeekStart now in
  let currentWeekEnd := currentWeekStart in
  let currentWeekEnd := setDate currentWeekEnd (getDate currentWeekStart + 6) in
  let currentWeekEnd := setHours currentWeekEnd 23 59 59 999 in
  currentWeekEnd.

Definition weekStartStr (now : Z) : Z := JsDate.toISODate (currentWeekStart now).
Definition weekEndStr (now : Z) : Z := JsDate.toISODate (currentWeekEnd now).
End Methods.

(** From the instant [first] to the instant [last] the zone's offset is
    [offset], asked of an instant or of its local time value. *)
Definition steady (zone : Zone) (offset first last : Z) : Prop :=
  forall t, first <= t <= last ->
    LocalTZA zone t true = offset /\ LocalTZA zone (t + offset) false = offset.

(** America/New_York as it was in 2024: UTC-5, and UTC-4 from
    2024-03-10T07:00Z (02:00 local, which becomes 03:00) to
    2024-11-03T06:00Z (02:00 local, which becomes 01:00).  Of the local
    times, 02:00..03:00 of 10 March is skipped and 01:00..02:00 of
    3 November comes twice; both are read with the offset before the
    transition. *)
Definition new_york_2024 : Zone :=
  mkZone (fun t isUTC =>
            if isUTC then
              if (1710054000000 <=? t) && (t <? 1730613600000)
              then -14400000 else -18000000
            else
              if (1710039600000 <=? t) && (t <? 1730599200000)
              then -14400000 else -18000000).

End HostZone.

(* ================================================================== *)
(** ** Validation schemas (schema.ts) *)

Module Zod.

(** Payloads as they arrive at a procedure.  Numbers are integers here;
    a missing property reads as [JUndefined]. *)
Inductive JsValue : Type :=
| JUndefined
| JNull
| JBoolean (b : bool)
| JNumber (n : Z)
| JString (s : string)
| JObject (fields : list (string * JsValue)).

Fixpoint prop_of (fields : list (string * JsValue)) (key : string) : JsValue :=
  match fields with
  | [] => JUndefined
  | (k, v) :: rest => if String.eqb k key then v else prop_of rest key
  end.

Definition prop (v : JsValue) (key : string) : JsValue :=
  match v with
  | JObject fields => prop_of fields key
  | _ => JUndefined
  end.

(** The combinators [schema.ts] uses for the procedure inputs:
    [z.number()], [z.string().min(n)] ([z.string()] is [min 0]),
    [.nullable()], [.optional()], [z.object({...})]. *)
Inductive ZodType : Type :=
| number
| string_min (n : nat)
| nullable (t : ZodType)
| optional (t : ZodType)
| object (shape : list (string * ZodType)).

Fixpoint accepts (t : ZodType) (v : JsValue) : bool :=
  match t with
  | number => match v with JNumber _ => true | _ => false end
  | string_min n =>
      match v with JString s => Nat.leb n (String.length s) | _ => false end
  | nullable t' => match v with JNull => true | _ => accepts t' v end
  | optional t' => match v with JUndefined => true | _ => accepts t' v end
  | object shape =>
      match v with
      | JObject fields =>
          (fix all (sh : list (string * ZodType)) : bool :=
             match sh with
             | [] => true
             | (k, tk) :: sh' => accepts tk (prop_of fields k) && all sh'
             end) shape
      | _ => false
      end
  end.

Definition as_number (v : JsValue) : option Z :=
  match v with JNumber n => Some n | _ => None end.

Definition as_string (v : JsValue) : option string :=
  match v with JString s => Some s | _ => None end.

End Zod.

Definition addGroceryItemInputSchema : Zod.ZodType :=
  Zod.object
    [ ("list_id"%string, Zod.number);
      ("category_id"%string, Zod.number);
      ("name"%string, Zod.string_min 1);
      ("quantity"%string, Zod.optional (Zod.nullable (Zod.string_min 0)));
      ("added_by_user_id"%string, Zod.number) ].

Definition toggleItemCompletionInputSchema : Zod.ZodType :=
  Zod.object
    [ ("item_id"%string, Zod.number); ("user_id"%string, Zod.number) ].

Definition removeGroceryItemInputSchema : Zod.ZodType :=
  Zod.object [ ("item_id"%string, Zod.number) ].

Definition getCurrentWeekListInputSchema : Zod.ZodType :=
  Zod.object [ ("couple_id"%string, Zod.number) ].

(** Handler inputs.  [list_id] is a [number] in the inferred type, yet the
    handler tests it for truthiness and the handler's tests delete the
    property: at run time it is a number or [undefined] ([None]).
    [quantity] is [string | null | undefined]; [null] and [undefined] are
    both [None] (the handler only applies [|| null] to it). *)
Record AddGroceryItemInput : Type := mkAddGroceryItemInput {
  in_list_id : option Z;
  in_category_id : Z;
  in_name : string;
  in_quantity : option string;
  in_added_by_user_id : Z
}.

Record ToggleItemCompletionInput : Type := mkToggleItemCompletionInput {
  in_item_id : Z;
  in_user_id : Z
}.

Record RemoveGroceryItemInput : Type := mkRemoveGroceryItemInput {
  rm_item_id : Z
}.

Record GetCurrentWeekListInput : Type := mkGetCurrentWeekListInput {
  in_couple_id : Z
}.

(** What [.input(addGroceryItemInputSchema)] hands to the mutation. *)
Definition parseAddGroceryItemInput (v : Zod.JsValue) : option AddGroceryItemInput :=
  if Zod.accepts addGroceryItemInputSchema v then
    match Zod.as_number (Zod.prop v "category_id"),
          Zod.as_string (Zod.prop v "name"),
          Zod.as_number (Zod.prop v "added_by_user_id") with
    | Some c, Some n, Some u =>
        Some {| in_list_id := Zod.as_number (Zod.prop v "list_id");
                in_category_id := c;
                in_name := n;
                in_quantity := Zod.as_string (Zod.prop v "quantity");
                in_added_by_user_id := u |}
    | _, _, _ => None
    end
  else None.

(* ================================================================== *)
(** ** Tables (db/schema.ts) *)

(** Timestamps are time values; [week_start] is a [date]: a day number. *)

Module User.
Record t : Type := mk { id : Z; name : string; email : string; created_at : Z }.
End User.

Module Couple.
Record t : Type := mk { id : Z; user1_id : Z; user2_id : Z; created_at : Z }.
End Couple.

Module Category.
Record t : Type := mk { id : Z; name : string; created_at : Z }.
End Category.

Module GroceryList.
Record t : Type := mk { id : Z; couple_id : Z; week_start : Z; created_at : Z }.
End GroceryList.

Module GroceryItem.
Record t : Type := mk {
  id : Z;
  list_id : Z;
  category_id : Z;
  name : string;
  quantity : option string;
  is_completed : bool;
  added_by_user_id : Z;
  completed_by_user_id : option Z;
  created_at : Z;
  completed_at : option Z
}.
End GroceryItem.

(** The store: the five tables in row order, and the two [serial]
    sequences the handlers draw from ([nextval] of the next insert). *)
Record Store : Type := mkStore {
  users : list User.t;
  couples : list Couple.t;
  categories : list Category.t;
  grocery_lists : list GroceryList.t;
  grocery_items : list GroceryItem.t;
  grocery_lists_id_seq : Z;
  grocery_items_id_seq : Z
}.

(* ================================================================== *)
(** ** Errors *)

(** One constructor per [throw] site of the handlers, plus what the
    collaborators raise: the driver on a violated constraint, the language
    on a property read of [undefined], the procedure layer on a payload its
    input schema rejects, and the driver again on a parameter the type of
    its column cannot hold (an integer outside 32 bits, a date text it
    cannot read) and on a [serial] sequence that has run out. *)
Inductive error : Type :=
| UserDoesNotExist (id : Z)
| CategoryDoesNotExist (id : Z)
| GroceryListDoesNotExist (id : Z)
| NotPartOfAnyCouple (id : Z)
| GroceryItemNotFound (id : Z)
| ConstraintViolation (constraint : string)
| TypeError
| BadRequest
| NumericValueOutOfRange (value : Z)
| InvalidDatetime (day : Z)
| SequenceLimitExceeded (sequence : string).

(** Template-literal rendering of an integer. *)
Definition show (n : Z) : string := NilZero.string_of_int (Z.to_int n).

(** The message of an error the handlers construct; the collaborators'
    messages are not part of the handlers' text. *)
Definition message (e : error) : option string :=
  match e with
  | UserDoesNotExist id =>
      Some ("User with id " ++ show id ++ " does not exist")%string
  | CategoryDoesNotExist id =>
      Some ("Category with id " ++ show id ++ " does not exist")%string
  | GroceryListDoesNotExist id =>
      Some ("Grocery list with id " ++ show id ++ " does not exist")%string
  | NotPartOfAnyCouple id =>
      Some ("User with id " ++ show id ++ " is not part of any couple")%string
  | GroceryItemNotFound id =>
      Some ("Grocery item with id " ++ show id ++ " not found")%string
  | ConstraintViolation _ | TypeError | BadRequest
  | NumericValueOutOfRange _ | InvalidDatetime _ | SequenceLimitExceeded _ => None
  end.

(** The taxonomy of the error-handling design. *)
Inductive error_kind : Type := NotFound | InvalidState | Unclassified.

Definition kind (e : error) : error_kind :=
  match e with
  | UserDoesNotExist _ | CategoryDoesNotExist _
  | GroceryListDoesNotExist _ | GroceryItemNotFound _ => NotFound
  | NotPartOfAnyCouple _ => InvalidState
  | ConstraintViolation _ | TypeError | BadRequest
  | NumericValueOutOfRange _ | InvalidDatetime _ | SequenceLimitExceeded _ => Unclassified
  end.

(* ================================================================== *)
(** ** The handler monad *)

(** A handler threads the store and may throw.  No statement runs in a
    transaction, so what was written before a throw stays written: the
    store is returned in both cases. *)
Definition M (A : Type) : Type := Store -> (error + A) * Store.

Definition ret {A : Type} (a : A) : M A := fun s => (inr a, s).

Definition throw {A : Type} (e : error) : M A := fun s => (inl e, s).

Definition bind {A B : Type} (m : M A) (k : A -> M B) : M B :=
  fun s =>
    match m s with
    | (inl e, s') => (inl e, s')
    | (inr a, s') => k a s'
    end.

(** [try { body } catch (error) { ...; handler }]. *)
Definition try_catch {A : Type} (body : M A) (handler : error -> M A) : M A :=
  fun s =>
    match body s with
    | (inl e, s') => handler e s'
    | (inr a, s') => (inr a, s')
    end.

Declare Scope handler_scope.
Delimit Scope handler_scope with handler.
Notation "x <- m ;; k" := (bind m (fun x => k))
  (at level 61, m at next level, right associativity) : handler_scope.
Notation "m ;;; k" := (bind m (fun _ => k))
  (at level 61, right associativity) : handler_scope.
Local Open Scope handler_scope.

(** [if (cond) { throw e }]. *)
Definition throw_if (cond : bool) (e : error) : M unit :=
  if cond then throw e else ret tt.

(* ================================================================== *)
(** ** The query builder over the store *)

(** [db.select().from(table).where(p).execute()]: the rows of the table
    that satisfy [p], in row order. *)
Definition select_from {R : Type} (table : Store -> list R) (where_ : R -> bool)
  : M (list R) :=
  fun s => (inr (filter where_ (table s)), s).

Definition with_grocery_lists (s : Store) (l : list GroceryList.t) (seq : Z) : Store :=
  {| users := users s; couples := couples s; categories := categories s;
     grocery_lists := l; grocery_items := grocery_items s;
     grocery_lists_id_seq := seq;
     grocery_items_id_seq := grocery_items_id_seq s |}.

Definition with_grocery_items (s : Store) (l : list GroceryItem.t) (seq : Z) : Store :=
  {| users := users s; couples := couples s; categories := categories s;
     grocery_lists := grocery_lists s; grocery_items := l;
     grocery_lists_id_seq := grocery_lists_id_seq s;
     grocery_items_id_seq := seq |}.

Definition has_user (s : Store) (id : Z) : bool :=
  existsb (fun u => User.id u =? id) (users s).
Definition has_couple (s : Store) (id : Z) : bool :=
  existsb (fun c => Couple.id c =? id) (couples s).
Definition has_category (s : Store) (id : Z) : bool :=
  existsb (fun c => Category.id c =? id) (categories s).
Definition has_grocery_list (s : Store) (id : Z) : bool :=
  existsb (fun l => GroceryList.id l =? id) (grocery_lists s).
Definition has_grocery_item (s : Store) (id : Z) : bool :=
  existsb (fun i => GroceryItem.id i =? id) (grocery_items s).

(** [db.insert(groceryListsTable).values({couple_id, week_start})
       .returning().execute()].
    The id is drawn from the sequence (which advances even when the row is
    refused), [created_at] defaults to the clock; the foreign key to
    couples and the primary key are checked. *)
Definition insert_grocery_list (clock couple_id week_start : Z)
  : M (list GroceryList.t) :=
  fun s =>
    let id := grocery_lists_id_seq s in
    let s1 := with_grocery_lists s (grocery_lists s) (id + 1) in
    if negb (has_couple s couple_id) then
      (inl (ConstraintViolation "grocery_lists_couple_id_couples_id_fk"), s1)
    else if has_grocery_list s id then
      (inl (ConstraintViolation "grocery_lists_pkey"), s1)
    else
      let row := GroceryList.mk id couple_id week_start clock in
      (inr [row], with_grocery_lists s (grocery_lists s ++ [row]) (id + 1)).

(** The values of an item insert, as the handler writes them. *)
Record GroceryItemValues : Type := mkGroceryItemValues {
  v_list_id : Z;
  v_category_id : Z;
  v_name : string;
  v_quantity : option string;
  v_added_by_user_id : Z;
  v_is_completed : bool;
  v_completed_by_user_id : option Z;
  v_completed_at : option Z
}.

Definition fk_user_opt (s : Store) (u : option Z) : bool :=
  match u with Some id => has_user s id | None => true end.

(** [db.insert(groceryItemsTable).values({...}).returning().execute()]. *)
Definition insert_grocery_item (clock : Z) (v : GroceryItemValues)
  : M (list GroceryItem.t) :=
  fun s =>
    let id := grocery_items_id_seq s in
    let s1 := with_grocery_items s (grocery_items s) (id + 1) in
    if negb (has_grocery_list s (v_list_id v)) then
      (inl (ConstraintViolation "grocery_items_list_id_grocery_lists_id_fk"), s1)
    else if negb (has_category s (v_category_id v)) then
      (inl (ConstraintViolation "grocery_items_category_id_categories_id_fk"), s1)
    else if negb (has_user s (v_added_by_user_id v)) then
      (inl (ConstraintViolation "grocery_items_added_by_user_id_users_id_fk"), s1)
    else if negb (fk_user_opt s (v_completed_by_user_id v)) then
      (inl (ConstraintViolation "grocery_items_completed_by_user_id_users_id_fk"), s1)
    else if has_grocery_item s id then
      (inl (ConstraintViolation "grocery_items_pkey"), s1)
    else
      let row :=
        GroceryItem.mk id (v_list_id v) (v_category_id v) (v_name v)
          (v_quantity v) (v_is_completed v) (v_added_by_user_id v)
          (v_completed_by_user_id v) clock (v_completed_at v) in
      (inr [row], with_grocery_items s (grocery_items s ++ [row]) (id + 1)).

(** The three columns the toggle writes. *)
Definition set_completion (is_completed : bool) (completed_by_user_id completed_at : option Z)
    (i : GroceryItem.t) : GroceryItem.t :=
  GroceryItem.mk (GroceryItem.id i) (GroceryItem.list_id i)
    (GroceryItem.category_id i) (GroceryItem.name i) (GroceryItem.quantity i)
    is_completed (GroceryItem.added_by_user_id i) completed_by_user_id
    (GroceryItem.created_at i) completed_at.

(** [db.update(groceryItemsTable).set({is_completed, completed_by_user_id,
       completed_at}).where(eq(id, item_id)).returning().execute()].
    Rows are rewritten in place; when a row is written the foreign key of
    [completed_by_user_id] is checked, and a refused statement writes
    nothing. *)
Definition update_grocery_items (item_id : Z)
    (is_completed : bool) (completed_by_user_id completed_at : option Z)
  : M (list GroceryItem.t) :=
  fun s =>
    let hit := fun i => GroceryItem.id i =? item_id in
    let set := set_completion is_completed completed_by_user_id completed_at in
    if existsb hit (grocery_items s) && negb (fk_user_opt s completed_by_user_id) then
      (inl (ConstraintViolation "grocery_items_completed_by_user_id_users_id_fk"), s)
    else
      (inr (map set (filter hit (grocery_items s))),
       with_grocery_items s
         (map (fun i => if hit i then set i else i) (grocery_items s))
         (grocery_items_id_seq s)).

(** The driver's result of a statement without [returning]. *)
Record QueryResult : Type := mkQueryResult { rowCount : option Z }.

(** [db.delete(groceryItemsTable).where(eq(id, item_id)).execute()].
    No table references grocery items, so a delete is never refused. *)
Definition delete_grocery_items (item_id : Z) : M QueryResult :=
  fun s =>
    let hit := fun i => GroceryItem.id i =? item_id in
    (inr (mkQueryResult (Some (Z.of_nat (List.length (filter hit (grocery_items s)))))),
     with_grocery_items s
       (filter (fun i => negb (hit i)) (grocery_items s))
       (grocery_items_id_seq s)).

(** One row of [items innerJoin lists innerJoin categories]. *)
Record JoinedRow : Type := mkJoinedRow {
  j_grocery_items : GroceryItem.t;
  j_grocery_lists : GroceryList.t;
  j_categories : Category.t
}.

(** [db.select().from(groceryItemsTable)
       .innerJoin(groceryListsTable, eq(items.list_id, lists.id))
       .innerJoin(categoriesTable, eq(items.category_id, categories.id))
       .where(p).execute()]. *)
Definition select_items_lists_categories (where_ : JoinedRow -> bool)
  : M (list JoinedRow) :=
  fun s =>
    (inr
       (filter where_
          (flat_map
             (fun i =>
                flat_map
                  (fun l =>
                     map (fun c => mkJoinedRow i l c)
                       (filter (fun c => GroceryItem.category_id i =? Category.id c)
                          (categories s)))
                  (filter (fun l => GroceryItem.list_id i =? GroceryList.id l)
                     (grocery_lists s)))
             (grocery_items s))),
     s).

(* ================================================================== *)
(** ** The handlers *)

(** Truthiness of [input.list_id]: [undefined] and [0] are falsy. *)
Definition truthy (n : option Z) : bool :=
  match n with
  | Some n => negb (n =? 0)
  | None => false
  end.

(** [input.quantity || null]: the empty string is falsy too. *)
Definition or_null (q : option string) : option string :=
  match q with
  | Some EmptyString => None
  | Some q => Some q
  | None => None
  end.

(** add_grocery_item.ts, [addGroceryItem].  [tz] is the host zone and
    [now] the clock read by [getCurrentWeekStart] and by the column
    defaults. *)
Definition addGroceryItem (tz now : Z) (input : AddGroceryItemInput)
  : M (option GroceryItem.t) :=
  try_catch
    ((* Validate that the user exists *)
     user <- select_from users (fun u => User.id u =? in_added_by_user_id input) ;;
     throw_if (Nat.eqb (List.length user) 0) (UserDoesNotExist (in_added_by_user_id input)) ;;;
     (* Validate that the category exists *)
     category <- select_from categories
                   (fun c => Category.id c =? in_category_id input) ;;
     throw_if (Nat.eqb (List.length category) 0)
       (CategoryDoesNotExist (in_category_id input)) ;;;
     ids <-
       (if truthy (in_list_id input) then
          let list_id := match in_list_id input with Some n => n | None => 0 end in
          existingList <- select_from grocery_lists
                            (fun l => GroceryList.id l =? list_id) ;;
          match existingList with
          | [] => throw (GroceryListDoesNotExist list_id)
          | l0 :: _ => ret (list_id, GroceryList.couple_id l0)
          end
        else
          userCouples <- select_from couples
                           (fun c => Couple.user1_id c =? in_added_by_user_id input) ;;
          userCouples2 <- select_from couples
                            (fun c => Couple.user2_id c =? in_added_by_user_id input) ;;
          let allUserCouples := userCouples ++ userCouples2 in
          match allUserCouples with
          | [] => throw (NotPartOfAnyCouple (in_added_by_user_id input))
          | c0 :: _ =>
              (* Use the first couple *)
              let coupleId := Couple.id c0 in
              let weekStart := getCurrentWeekStart tz now in
              groceryList <- select_from grocery_lists
                               (fun l => (GroceryList.couple_id l =? coupleId)
                                         && (GroceryList.week_start l
                                             =? JsDate.toISODate weekStart)) ;;
              match groceryList with
              | [] =>
                  newList <- insert_grocery_list now coupleId
                               (JsDate.toISODate weekStart) ;;
                  match newList with
                  | [] => throw TypeError
                  | l0 :: _ => ret (GroceryList.id l0, coupleId)
                  end
              | l0 :: _ => ret (GroceryList.id l0, coupleId)
              end
          end) ;;
     let listId := fst ids in
     (* Insert grocery item record *)
     result <- insert_grocery_item now
                 {| v_list_id := listId;
                    v_category_id := in_category_id input;
                    v_name := in_name input;
                    v_quantity := or_null (in_quantity input);
                    v_added_by_user_id := in_added_by_user_id input;
                    v_is_completed := false;
                    v_completed_by_user_id := None;
                    v_completed_at := None |} ;;
     ret (hd_error result))
    (fun error => throw error).

(** The [addGroceryItem] procedure of the router:
    [publicProcedure.input(addGroceryItemInputSchema)
       .mutation(({ input }) => addGroceryItem(input))]. *)
Definition addGroceryItemProcedure (tz now : Z) (payload : Zod.JsValue)
  : M (option GroceryItem.t) :=
  match parseAddGroceryItemInput payload with
  | None => throw BadRequest
  | Some input => addGroceryItem tz now input
  end.

(** toggle_item_completion handler, [toggleItemCompletion]; [now] is the
    [new Date()] of the update. *)
Definition toggleItemCompletion (now : Z) (input : ToggleItemCompletionInput)
  : M (option GroceryItem.t) :=
  try_catch
    (currentItems <- select_from grocery_items
                       (fun i => GroceryItem.id i =? in_item_id input) ;;
     match currentItems with
     | [] => throw (GroceryItemNotFound (in_item_id input))
     | currentItem :: _ =>
         let isCurrentlyCompleted := GroceryItem.is_completed currentItem in
         (* Toggle the completion status *)
         result <- update_grocery_items (in_item_id input)
                     (negb isCurrentlyCompleted)
                     (if negb isCurrentlyCompleted then Some (in_user_id input) else None)
                     (if negb isCurrentlyCompleted then Some now else None) ;;
         ret (hd_error result)
     end)
    (fun error => throw error).

Record RemoveResult : Type := mkRemoveResult { success : bool }.

(** remove_grocery_item.ts, [removeGroceryItem]. *)
Definition removeGroceryItem (input : RemoveGroceryItemInput) : M RemoveResult :=
  try_catch
    (result <- delete_grocery_items (rm_item_id input) ;;
     ret (mkRemoveResult
            ((match rowCount result with Some n => n | None => 0 end) >? 0)))
    (fun error => throw error).

Record GroceryItemWithCategory : Type := mkGroceryItemWithCategory {
  w_id : Z;
  w_list_id : Z;
  w_category_id : Z;
  w_name : string;
  w_quantity : option string;
  w_is_completed : bool;
  w_added_by_user_id : Z;
  w_completed_by_user_id : option Z;
  w_created_at : Z;
  w_completed_at : option Z;
  w_category : Category.t
}.

(** The [results.map(result => ({...}))] of the query handler. *)
Definition transform (result : JoinedRow) : GroceryItemWithCategory :=
  {| w_id := GroceryItem.id (j_grocery_items result);
     w_list_id := GroceryItem.list_id (j_grocery_items result);
     w_category_id := GroceryItem.category_id (j_grocery_items result);
     w_name := GroceryItem.name (j_grocery_items result);
     w_quantity := GroceryItem.quantity (j_grocery_items result);
     w_is_completed := GroceryItem.is_completed (j_grocery_items result);
     w_added_by_user_id := GroceryItem.added_by_user_id (j_grocery_items result);
     w_completed_by_user_id := GroceryItem.completed_by_user_id (j_grocery_items result);
     w_created_at := GroceryItem.created_at (j_grocery_items result);
     w_completed_at := GroceryItem.completed_at (j_grocery_items result);
     w_category :=
       Category.mk (Category.id (j_categories result))
         (Category.name (j_categories result))
         (Category.created_at (j_categories result)) |}.

(** get_current_week_list handler, [getCurrentWeekList]. *)
Definition getCurrentWeekList (tz now : Z) (input : GetCurrentWeekListInput)
  : M (list GroceryItemWithCategory) :=
  try_catch
    (let weekStartStr := weekStartStr tz now in
     let weekEndStr := weekEndStr tz now in
     results <- select_items_lists_categories
                  (fun r =>
                     (GroceryList.couple_id (j_grocery_lists r) =? in_couple_id input)
                     && (GroceryList.week_start (j_grocery_lists r) >=? weekStartStr)
                     && (GroceryList.week_start (j_grocery_lists r) <=? weekEndStr)) ;;
     ret (map transform results))
    (fun error => throw error).

(* ================================================================== *)
(** ** Vocabulary of the properties *)

(** Both sequences are ahead of every id in their table: the state of a
    [serial] column that only ever received generated ids. *)
Definition seq_fresh (s : Store) : bool :=
  forallb (fun l => GroceryList.id l <? grocery_lists_id_seq s) (grocery_lists s)
  && forallb (fun i => GroceryItem.id i <? grocery_items_id_seq s) (grocery_items s).

(** Primary keys of the two tables the query joins to. *)
Fixpoint unique_ids (ids : list Z) : bool :=
  match ids with
  | [] => true
  | x :: rest => negb (existsb (Z.eqb x) rest) && unique_ids rest
  end.

(** The couple of a user: the first couple in store order in which the
    user is user 1, and only when there is none the first in which the
    user is user 2. *)
Definition first_couple (s : Store) (u : Z) : option Couple.t :=
  match find (fun c => Couple.user1_id c =? u) (couples s) with
  | Some c => Some c
  | None => find (fun c => Couple.user2_id c =? u) (couples s)
  end.

Definition member_of (u : Z) (c : Couple.t) : Prop :=
  Couple.user1_id c = u \/ Couple.user2_id c = u.

(** The lists of a couple for a week. *)
Definition lists_for (s : Store) (couple week : Z) : list GroceryList.t :=
  filter (fun l => (GroceryList.couple_id l =? couple)
                   && (GroceryList.week_start l =? week))
    (grocery_lists s).

(** The week start the add-item handler stores and looks up. *)
Definition current_week (tz now : Z) : Z :=
  JsDate.toISODate (getCurrentWeekStart tz now).

(** The rows an add-item call writes in store [s]. *)
Definition new_list_row (now couple week : Z) (s : Store) : GroceryList.t :=
  GroceryList.mk (grocery_lists_id_seq s) couple week now.

Definition new_item_row (now : Z) (input : AddGroceryItemInput) (list : Z) (s : Store)
  : GroceryItem.t :=
  GroceryItem.mk (grocery_items_id_seq s) list (in_category_id input)
    (in_name input) (or_null (in_quantity input)) false
    (in_added_by_user_id input) None now None.

(** The first row with a given id, as [select ... where id = ...][0]. *)
Definition item_by_id (s : Store) (id : Z) : option GroceryItem.t :=
  hd_error (filter (fun i => GroceryItem.id i =? id) (grocery_items s)).

(** The store after a toggle that wrote [(b, u, t)]. *)
Definition toggled_store (s : Store) (id : Z) (b : bool) (u t : option Z) : Store :=
  with_grocery_items s
    (map (fun i => if GroceryItem.id i =? id then set_completion b u t i else i)
       (grocery_items s))
    (grocery_items_id_seq s).

(** The completion invariant of an item row. *)
Definition completion_consistent (i : GroceryItem.t) : Prop :=
  (GroceryItem.completed_by_user_id i <> None /\ GroceryItem.completed_at i <> None)
  <-> GroceryItem.is_completed i = true.

(** What the handlers actually maintain: the flag decides both fields. *)
Definition fields_follow_flag (i : GroceryItem.t) : Prop :=
  if GroceryItem.is_completed i
  then GroceryItem.completed_by_user_id i <> None /\ GroceryItem.completed_at i <> None
  else GroceryItem.completed_by_user_id i = None /\ GroceryItem.completed_at i = None.

(** A computation whose every run relates the store before to the store
    after by [R], whether it returns or throws. *)
Definition steps {A : Type} (R : Store -> Store -> Prop) (m : M A) : Prop :=
  forall s, R s (snd (m s)).

(** The sequences stay ahead of the ids. *)
Definition keeps_seq_fresh (s s' : Store) : Prop :=
  seq_fresh s = true -> seq_fresh s' = true.

(** The items table only grew, by rows that are incomplete with both
    completion fields null. *)
Definition appends_open_rows (s s' : Store) : Prop :=
  exists rows,
    grocery_items s' = grocery_items s ++ rows
    /\ Forall (fun r => GroceryItem.is_completed r = false
                        /\ GroceryItem.completed_by_user_id r = None
                        /\ GroceryItem.completed_at r = None) rows.

(** The item operations, and the stores they reach from a store without
    items (failed calls included: they are steps too). *)
Inductive item_op : Type :=
| OpAdd (tz now : Z) (input : AddGroceryItemInput)
| OpToggle (now : Z) (input : ToggleItemCompletionInput)
| OpRemove (input : RemoveGroceryItemInput).

Definition run_op (op : item_op) (s : Store) : Store :=
  match op with
  | OpAdd tz now input => snd (addGroceryItem tz now input s)
  | OpToggle now input => snd (toggleItemCompletion now input s)
  | OpRemove input => snd (removeGroceryItem input s)
  end.

Inductive reachable : Store -> Prop :=
| reachable_init : forall s, grocery_items s = [] -> reachable s
| reachable_step : forall s op, reachable s -> reachable (run_op op s).

(** Days from the local day of [now] back to its Monday. *)
Definition days_to_monday (tz now : Z) : Z :=
  if JsDate.getDay tz now =? 0 then 6 else JsDate.getDay tz now - 1.

(** The membership condition of the query, on a list row. *)
Definition in_window (tz now couple : Z) (l : GroceryList.t) : bool :=
  (GroceryList.couple_id l =? couple)
  && (GroceryList.week_start l >=? weekStartStr tz now)
  && (GroceryList.week_start l <=? weekEndStr tz now).

(** An item together with its category record. *)
Definition enrich (i : GroceryItem.t) (c : Category.t) : GroceryItemWithCategory :=
  transform (mkJoinedRow i (GroceryList.mk 0 0 0 0) c).

(** The list and the category an item row refers to. *)
Definition owning_list (s : Store) (i : GroceryItem.t) : option GroceryList.t :=
  find (fun l => GroceryItem.list_id i =? GroceryList.id l) (grocery_lists s).

Definition category_of (s : Store) (i : GroceryItem.t) : option Category.t :=
  find (fun c => GroceryItem.category_id i =? Category.id c) (categories s).

(** The items whose owning list satisfies [keep], in item order, each with
    its category record. *)
Definition items_of_lists (keep : GroceryList.t -> bool) (s : Store)
  : list GroceryItemWithCategory :=
  flat_map
    (fun i =>
       match owning_list s i, category_of s i with
       | Some l, Some c => if keep l then [enrich i c] else []
       | _, _ => []
       end)
    (grocery_items s).

(** Monday through Sunday of the week of [now], as calendar dates of the
    host zone. *)
Definition monday_of (tz now : Z) : Z :=
  JsDate.Day (JsDate.LocalTime tz now) - days_to_monday tz now.

Definition monday_to_sunday (tz now couple : Z) (l : GroceryList.t) : bool :=
  (GroceryList.couple_id l =? couple)
  && (monday_of tz now <=? GroceryList.week_start l)
  && (GroceryList.week_start l <=? monday_of tz now + 6).

(* ------------------------------------------------------------------ *)
(** *** Sample data *)

(** Two users, one couple, one category, nothing else; ids as a fresh
    database hands them out. *)
Definition alice : User.t := User.mk 1 "Test User" "test@example.com" 0.
Definition bob : User.t := User.mk 2 "Test User 2" "test2@example.com" 0.
Definition carol : User.t := User.mk 3 "Lone User" "lone@example.com" 0.
Definition produce : Category.t := Category.mk 1 "Produce" 0.

Definition household : Store :=
  {| users := [alice; bob; carol];
     couples := [Couple.mk 1 1 2 0];
     categories := [produce];
     grocery_lists := [];
     grocery_items := [];
     grocery_lists_id_seq := 1;
     grocery_items_id_seq := 1 |}.

(** Wednesday 2024-01-03, 12:00 UTC; day 19725, its Monday is day 19723. *)
Definition wednesday_noon : Z := 1704283200000.

Definition bananas (list : option Z) (user : Z) : AddGroceryItemInput :=
  {| in_list_id := list; in_category_id := 1; in_name := "Bananas";
     in_quantity := Some "2 bunches"%string; in_added_by_user_id := user |}.

(** Alice is user 1 of two couples. *)
Definition two_households : Store :=
  {| users := [alice; bob; carol];
     couples := [Couple.mk 1 1 2 0; Couple.mk 2 1 3 0];
     categories := [produce];
     grocery_lists := [];
     grocery_items := [];
     grocery_lists_id_seq := 1;
     grocery_items_id_seq := 1 |}.

(** Carol is user 2 of the first couple and user 1 of the second. *)
Definition mixed_roles : Store :=
  {| users := [alice; bob; carol];
     couples := [Couple.mk 1 1 3 0; Couple.mk 2 3 2 0];
     categories := [produce];
     grocery_lists := [];
     grocery_items := [];
     grocery_lists_id_seq := 1;
     grocery_items_id_seq := 1 |}.

Definition monday_list : GroceryList.t := GroceryList.mk 1 1 19723 0.

Definition open_item : GroceryItem.t :=
  GroceryItem.mk 1 1 1 "Test Item" (Some "1 unit"%string) false 1 None 0 None.

(** An item Alice completed at time 100. *)
Definition done_item : GroceryItem.t :=
  GroceryItem.mk 1 1 1 "Test Item" (Some "1 unit"%string) true 1 (Some 1) 0 (Some 100).

Definition with_item (i : GroceryItem.t) : Store :=
  {| users := [alice; bob; carol];
     couples := [Couple.mk 1 1 2 0];
     categories := [produce];
     grocery_lists := [monday_list];
     grocery_items := [i];
     grocery_lists_id_seq := 2;
     grocery_items_id_seq := 2 |}.

(** The host five hours west of UTC, Wednesday 2024-01-03 12:00 local
    time, and a list for Monday 2024-01-08 (day 19730) of the next week. *)
Definition utc_minus_5 : Z := -18000000.
Definition wednesday_noon_west : Z := 1704301200000.
Definition next_monday_list : GroceryList.t := GroceryList.mk 1 1 19730 0.

Definition planned_ahead : Store :=
  {| users := [alice; bob; carol];
     couples := [Couple.mk 1 1 2 0];
     categories := [produce];
     grocery_lists := [next_monday_list];
     grocery_items := [open_item];
     grocery_lists_id_seq := 2;
     grocery_items_id_seq := 2 |}.

(** A payload without the [list_id] property. *)
Definition fields_without_list : list (string * Zod.JsValue) :=
  [ ("category_id"%string, Zod.JNumber 1);
    ("name"%string, Zod.JString "Bananas");
    ("added_by_user_id"%string, Zod.JNumber 1) ].

Definition payload_without_list : Zod.JsValue := Zod.JObject fields_without_list.

Definition payload_with_list (n : Z) : Zod.JsValue :=
  Zod.JObject
    [ ("list_id"%string, Zod.JNumber n);
      ("category_id"%string, Zod.JNumber 1);
      ("name"%string, Zod.JString "Bananas");
      ("added_by_user_id"%string, Zod.JNumber 1) ].

(* ================================================================== *)
(** ** The couple and list handlers *)

(** [new Date("YYYY-MM-DD")]: a date-only text is read as 00:00 UTC of
    that calendar date. *)
Definition dateOfISODate (day : Z) : Z := JsDate.MakeDate day 0.

(** The [GroceryList] of schema.ts: the row with [week_start] as a [Date]. *)
Module Schema.
Record GroceryList : Type := mkGroceryList {
  id : Z;
  couple_id : Z;
  week_start : Z;
  created_at : Z
}.
End Schema.

(** The [{...list, week_start: new Date(list.week_start)}] of both list
    handlers. *)
Definition with_date (list : GroceryList.t) : Schema.GroceryList :=
  {| Schema.id := GroceryList.id list;
     Schema.couple_id := GroceryList.couple_id list;
     Schema.week_start := dateOfISODate (GroceryList.week_start list);
     Schema.created_at := GroceryList.created_at list |}.

(** The store together with the sequence of the couples table, which the
    item handlers never draw from. *)
Record Database : Type := mkDatabase {
  tables : Store;
  couples_id_seq : Z
}.

(** What these handlers throw: their own "couple does not exist", or an
    error of the kinds above. *)
Inductive thrown : Type :=
| CoupleDoesNotExist (id : Z)
| Thrown (e : error).

Definition thrown_message (t : thrown) : option string :=
  match t with
  | CoupleDoesNotExist id =>
      Some ("Couple with id " ++ show id ++ " does not exist")%string
  | Thrown e => message e
  end.

Definition MD (A : Type) : Type := Database -> (thrown + A) * Database.

Definition retD {A : Type} (a : A) : MD A := fun d => (inr a, d).

Definition throwD {A : Type} (t : thrown) : MD A := fun d => (inl t, d).

Definition bindD {A B : Type} (m : MD A) (k : A -> MD B) : MD B :=
  fun d =>
    match m d with
    | (inl t, d') => (inl t, d')
    | (inr a, d') => k a d'
    end.

Definition try_catchD {A : Type} (body : MD A) (handler : thrown -> MD A) : MD A :=
  fun d =>
    match body d with
    | (inl t, d') => handler t d'
    | (inr a, d') => (inr a, d')
    end.

(** A statement on the five tables, run in the database. *)
Definition lift {A : Type} (m : M A) : MD A :=
  fun d =>
    match m (tables d) with
    | (inl e, s') => (inl (Thrown e), mkDatabase s' (couples_id_seq d))
    | (inr a, s') => (inr a, mkDatabase s' (couples_id_seq d))
    end.

Definition throw_ifD (cond : bool) (t : thrown) : MD unit :=
  if cond then throwD t else retD tt.

Declare Scope database_scope.
Delimit Scope database_scope with database.
Notation "x <- m ;; k" := (bindD m (fun x => k))
  (at level 61, m at next level, right associativity) : database_scope.
Notation "m ;;; k" := (bindD m (fun _ => k))
  (at level 61, right associativity) : database_scope.

Definition with_couples (s : Store) (l : list Couple.t) : Store :=
  {| users := users s; couples := l; categories := categories s;
     grocery_lists := grocery_lists s; grocery_items := grocery_items s;
     grocery_lists_id_seq := grocery_lists_id_seq s;
     grocery_items_id_seq := grocery_items_id_seq s |}.

(** [db.insert(couplesTable).values({user1_id, user2_id})
       .returning().execute()]: both user columns reference users. *)
Definition insert_couple (clock user1_id user2_id : Z) : MD (list Couple.t) :=
  fun d =>
    let s := tables d in
    let id := couples_id_seq d in
    let d1 := mkDatabase s (id + 1) in
    if negb (has_user s user1_id) then
      (inl (Thrown (ConstraintViolation "couples_user1_id_users_id_fk")), d1)
    else if negb (has_user s user2_id) then
      (inl (Thrown (ConstraintViolation "couples_user2_id_users_id_fk")), d1)
    else if has_couple s id then
      (inl (Thrown (ConstraintViolation "couples_pkey")), d1)
    else
      let row := Couple.mk id user1_id user2_id clock in
      (inr [row], mkDatabase (with_couples s (couples s ++ [row])) (id + 1)).

Record CreateCoupleInput : Type := mkCreateCoupleInput {
  cc_user1_id : Z;
  cc_user2_id : Z
}.

(** create_couple handler, [createCouple]. *)
Definition createCouple (clock : Z) (input : CreateCoupleInput)
  : MD (option Couple.t) :=
  (try_catchD
     ((* Verify both users exist *)
      user1 <- lift (select_from users (fun u => User.id u =? cc_user1_id input)) ;;
      user2 <- lift (select_from users (fun u => User.id u =? cc_user2_id input)) ;;
      throw_ifD (Nat.eqb (List.length user1) 0)
        (Thrown (UserDoesNotExist (cc_user1_id input))) ;;;
      throw_ifD (Nat.eqb (List.length user2) 0)
        (Thrown (UserDoesNotExist (cc_user2_id input))) ;;;
      (* Insert couple record *)
      result <- insert_couple clock (cc_user1_id input) (cc_user2_id input) ;;
      retD (hd_error result))
     (fun error => throwD error))%database.

Record CreateGroceryListInput : Type := mkCreateGroceryListInput {
  cl_couple_id : Z;
  cl_week_start : Z
}.

(** create_grocery_list handler, [createGroceryList]; [cl_week_start] is a
    [Date].  Reading [week_start] of a missing [result[0]] is a type
    error. *)
Definition createGroceryList (clock : Z) (input : CreateGroceryListInput)
  : MD Schema.GroceryList :=
  (try_catchD
     ((* Verify couple exists first *)
      existingCouple <- lift (select_from couples
                                (fun c => Couple.id c =? cl_couple_id input)) ;;
      throw_ifD (Nat.eqb (List.length existingCouple) 0)
        (CoupleDoesNotExist (cl_couple_id input)) ;;;
      (* Insert grocery list record - convert Date to string *)
      result <- lift (insert_grocery_list clock (cl_couple_id input)
                        (JsDate.toISODate (cl_week_start input))) ;;
      (* Convert string back to Date before returning *)
      match result with
      | [] => throwD (Thrown TypeError)
      | groceryList :: _ => retD (with_date groceryList)
      end)
     (fun error => throwD error))%database.

(** [.orderBy(desc(column))]: rows by decreasing key.  Among rows of equal
    key the database promises no order; here they keep their row order. *)
Fixpoint insert_desc {R : Type} (key : R -> Z) (x : R) (sorted : list R) : list R :=
  match sorted with
  | [] => [x]
  | y :: rest =>
      if key y <=? key x then x :: y :: rest else y :: insert_desc key x rest
  end.

Definition order_by_desc {R : Type} (key : R -> Z) (rows : list R) : list R :=
  fold_right (insert_desc key) [] rows.

(** [db.select().from(table).where(p).orderBy(desc(column)).execute()]. *)
Definition select_from_order_by_desc {R : Type} (table : Store -> list R)
    (where_ : R -> bool) (column : R -> Z) : M (list R) :=
  fun s => (inr (order_by_desc column (filter where_ (table s))), s).

(** get_grocery_lists.ts, [getGroceryLists]. *)
Definition getGroceryLists (coupleId : Z) : MD (list Schema.GroceryList) :=
  (try_catchD
     (results <- lift (select_from_order_by_desc grocery_lists
                         (fun l => GroceryList.couple_id l =? coupleId)
                         GroceryList.week_start) ;;
      (* Convert week_start from string to Date object *)
      retD (map with_date results))
     (fun error => throwD error))%database.

(* ================================================================== *)
(** ** The client (App.tsx) *)

(** Demo configuration. *)
Definition COUPLE_ID : Z := 1.
Definition USER_ID : Z := 1.

(** [createOfflineCurrentWeekList]; the client's [getCurrentWeekStart] is
    the text of [currentWeekStart] above, run in the client's zone. *)
Definition createOfflineCurrentWeekList (tz now : Z) : Schema.GroceryList :=
  let weekStart := currentWeekStart tz now in
  {| Schema.id := 1;
     Schema.couple_id := COUPLE_ID;
     Schema.week_start := weekStart;
     Schema.created_at := now |}.

(** [ensureCurrentWeekList]: the two remote calls are the handlers behind
    the procedures (dates cross the wire unchanged); the second component
    of the result tells whether [setIsOfflineMode(true)] ran.  A transport
    failure, which also lands in the [catch], is not modelled. *)
Definition ensureCurrentWeekList (tz now clock : Z) : MD (Schema.GroceryList * bool) :=
  (try_catchD
     ((* First, try to get existing grocery lists for this couple *)
      existingLists <- getGroceryLists COUPLE_ID ;;
      let currentWeekStart := currentWeekStart tz now in
      (* Look for a list that matches the current week *)
      let currentWeekStartStr := JsDate.toISODate currentWeekStart in
      let existingCurrentWeekList :=
        find (fun list =>
                let listWeekStart := JsDate.toISODate (Schema.week_start list) in
                listWeekStart =? currentWeekStartStr)
          existingLists in
      match existingCurrentWeekList with
      | Some list => retD (list, false)
      | None =>
          (* If no current week list exists, create one *)
          newList <- createGroceryList clock
                       {| cl_couple_id := COUPLE_ID;
                          cl_week_start := currentWeekStart |} ;;
          retD (newList, false)
      end)
     (fun error => retD (createOfflineCurrentWeekList tz now, true)))%database.

(** The local item list after a toggle in offline mode
    ([handleToggleComplete], first branch). *)
Definition offlineToggle (now itemId : Z) (prev : list GroceryItemWithCategory)
  : list GroceryItemWithCategory :=
  map (fun item =>
         if w_id item =? itemId then
           {| w_id := w_id item;
              w_list_id := w_list_id item;
              w_category_id := w_category_id item;
              w_name := w_name item;
              w_quantity := w_quantity item;
              w_is_completed := negb (w_is_completed item);
              w_added_by_user_id := w_added_by_user_id item;
              w_completed_by_user_id :=
                if w_is_completed item then None else Some USER_ID;
              w_created_at := w_created_at item;
              w_completed_at := if w_is_completed item then None else Some now;
              w_category := w_category item |}
         else item)
    prev.

(** The local item list after a successful remote toggle
    ([handleToggleComplete], second branch): [completed_at] is not
    written. *)
Definition optimisticToggle (itemId : Z) (prev : list GroceryItemWithCategory)
  : list GroceryItemWithCategory :=
  map (fun item =>
         if w_id item =? itemId then
           {| w_id := w_id item;
              w_list_id := w_list_id item;
              w_category_id := w_category_id item;
              w_name := w_name item;
              w_quantity := w_quantity item;
              w_is_completed := negb (w_is_completed item);
              w_added_by_user_id := w_added_by_user_id item;
              w_completed_by_user_id :=
                if w_is_completed item then None else Some USER_ID;
              w_created_at := w_created_at item;
              w_completed_at := w_completed_at item;
              w_category := w_category item |}
         else item)
    prev.

(** The local item list after a removal ([handleRemoveItem], both
    branches). *)
Definition localRemove (itemId : Z) (prev : list GroceryItemWithCategory)
  : list GroceryItemWithCategory :=
  filter (fun item => negb (w_id item =? itemId)) prev.

(* ------------------------------------------------------------------ *)
(** *** Vocabulary for the list handlers and the client *)

(** The joined rows an item contributes, and the join. *)
Definition rows_of_item (s : Store) (i : GroceryItem.t) : list JoinedRow :=
  flat_map
    (fun l =>
       map (fun c => mkJoinedRow i l c)
         (filter (fun c => GroceryItem.category_id i =? Category.id c)
            (categories s)))
    (filter (fun l => GroceryItem.list_id i =? GroceryList.id l)
       (grocery_lists s)).

Definition joined_rows (s : Store) : list JoinedRow :=
  flat_map (rows_of_item s) (grocery_items s).

(** The rows of the query handler for a couple. *)
Definition week_rows (tz now couple : Z) (s : Store) : list GroceryItemWithCategory :=
  map transform
    (filter (fun r => in_window tz now couple (j_grocery_lists r)) (joined_rows s)).

(** The rows of the query that come from one item. *)
Definition item_week_rows (tz now couple : Z) (s : Store) (i : GroceryItem.t)
  : list GroceryItemWithCategory :=
  map transform
    (filter (fun r => in_window tz now couple (j_grocery_lists r)) (rows_of_item s i)).

(** A row of the client's list, toggled in offline mode. *)
Definition offline_row (now itemId : Z) (item : GroceryItemWithCategory)
  : GroceryItemWithCategory :=
  if w_id item =? itemId then
    {| w_id := w_id item;
       w_list_id := w_list_id item;
       w_category_id := w_category_id item;
       w_name := w_name item;
       w_quantity := w_quantity item;
       w_is_completed := negb (w_is_completed item);
       w_added_by_user_id := w_added_by_user_id item;
       w_completed_by_user_id := if w_is_completed item then None else Some USER_ID;
       w_created_at := w_created_at item;
       w_completed_at := if w_is_completed item then None else Some now;
       w_category := w_category item |}
  else item.

Definition items_unique (s : Store) : bool :=
  unique_ids (map GroceryItem.id (grocery_items s)).

(** Item ids are pairwise distinct and below the sequence. *)
Definition item_keys_ok (s : Store) : Prop :=
  items_unique s = true
  /\ forall i, In i (grocery_items s) -> GroceryItem.id i < grocery_items_id_seq s.

Definition keeps_item_keys (s s' : Store) : Prop :=
  item_keys_ok s -> item_keys_ok s'.

(** The household with the couples sequence of a fresh database. *)
Definition household_db : Database := mkDatabase household 2.

(* ================================================================== *)
(** ** The handlers behind the database driver *)

(** The statements of the query builder above compare and store integers
    and dates as such.  The database types the parameters of a statement
    by the columns they meet, when the statement is bound and before it
    runs: a parameter for an [integer] column must fit 32 bits, and the
    text of a parameter for a [date] column must be a date of the years
    0001 to 9999 ([toISOString] writes other years with a sign and six
    digits, which the database does not read as a date, and it has no year
    0000).  A [serial] column draws its ids from a sequence that ends at the
    largest 32-bit integer.  The input schemas let any number through, so a
    handler can meet all three.  The handlers of this module are the
    handlers of the source with each statement sent through these checks,
    on a host whose zone may change its offset. *)
Module Driver.

Definition int4 (n : Z) : bool := (-2147483648 <=? n) && (n <=? 2147483647).

(** 0001-01-01 is day -719162 and 9999-12-31 is day 2932896. *)
Definition date_text (day : Z) : bool := (-719162 <=? day) && (day <=? 2932896).

(** What the database answers to the parameters of a statement, integers
    first (they come first in every statement of the handlers). *)
Definition refusal (integers dates : list Z) : option error :=
  match find (fun n => negb (int4 n)) integers with
  | Some n => Some (NumericValueOutOfRange n)
  | None =>
      match find (fun d => negb (date_text d)) dates with
      | Some d => Some (InvalidDatetime d)
      | None => None
      end
  end.

(** A statement sent with its [integer] and [date] parameters: a refused
    parameter raises before the statement runs. *)
Definition bound {A : Type} (integers dates : list Z) (statement : M A) : M A :=
  match refusal integers dates with
  | Some e => throw e
  | None => statement
  end.

Definition boundD {A : Type} (integers dates : list Z) (statement : MD A) : MD A :=
  match refusal integers dates with
  | Some e => throwD (Thrown e)
  | None => statement
  end.

Definition last_serial : Z := 2147483647.

(** An insert that draws its id from a sequence: past the last value the
    draw raises, and nothing is written. *)
Definition nextval {A : Type} (sequence : string) (next : Store -> Z)
    (statement : M A) : M A :=
  fun s =>
    if next s <=? last_serial then statement s
    else (inl (SequenceLimitExceeded sequence), s).

Definition nextvalD {A : Type} (sequence : string) (next : Database -> Z)
    (statement : MD A) : MD A :=
  fun d =>
    if next d <=? last_serial then statement d
    else (inl (Thrown (SequenceLimitExceeded sequence)), d).

(** The parameter list of a nullable integer. *)
Definition nullable (n : option Z) : list Z :=
  match n with Some n => [n] | None => [] end.

(** add_grocery_item.ts, [addGroceryItem]. *)
Definition addGroceryItem (zone : HostZone.Zone) (now : Z) (input : AddGroceryItemInput)
  : M (option GroceryItem.t) :=
  try_catch
    ((* Validate that the user exists *)
     user <- bound [in_added_by_user_id input] []
               (select_from users (fun u => User.id u =? in_added_by_user_id input)) ;;
     throw_if (Nat.eqb (List.length user) 0) (UserDoesNotExist (in_added_by_user_id input)) ;;;
     (* Validate that the category exists *)
     category <- bound [in_category_id input] []
                   (select_from categories
                      (fun c => Category.id c =? in_category_id input)) ;;
     throw_if (Nat.eqb (List.length category) 0)
       (CategoryDoesNotExist (in_category_id input)) ;;;
     ids <-
       (if truthy (in_list_id input) then
          let list_id := match in_list_id input with Some n => n | None => 0 end in
          existingList <- bound [list_id] []
                            (select_from grocery_lists
                               (fun l => GroceryList.id l =? list_id)) ;;
          match existingList with
          | [] => throw (GroceryListDoesNotExist list_id)
          | l0 :: _ => ret (list_id, GroceryList.couple_id l0)
          end
        else
          userCouples <- bound [in_added_by_user_id input] []
                           (select_from couples
                              (fun c => Couple.user1_id c =? in_added_by_user_id input)) ;;
          userCouples2 <- bound [in_added_by_user_id input] []
                            (select_from couples
                               (fun c => Couple.user2_id c =? in_added_by_user_id input)) ;;
          let allUserCouples := userCouples ++ userCouples2 in
          match allUserCouples with
          | [] => throw (NotPartOfAnyCouple (in_added_by_user_id input))
          | c0 :: _ =>
              (* Use the first couple *)
              let coupleId := Couple.id c0 in
              let weekStart := HostZone.getCurrentWeekStart zone now in
              groceryList <- bound [coupleId] [JsDate.toISODate weekStart]
                               (select_from grocery_lists
                                  (fun l => (GroceryList.couple_id l =? coupleId)
                                            && (GroceryList.week_start l
                                                =? JsDate.toISODate weekStart))) ;;
              match groceryList with
              | [] =>
                  newList <- bound [coupleId] [JsDate.toISODate weekStart]
                               (nextval "grocery_lists_id_seq" grocery_lists_id_seq
                                  (insert_grocery_list now coupleId
                                     (JsDate.toISODate weekStart))) ;;
                  match newList with
                  | [] => throw TypeError
                  | l0 :: _ => ret (GroceryList.id l0, coupleId)
                  end
              | l0 :: _ => ret (GroceryList.id l0, coupleId)
              end
          end) ;;
     let listId := fst ids in
     (* Insert grocery item record *)
     result <- bound [listId; in_category_id input; in_added_by_user_id input] []
                 (nextval "grocery_items_id_seq" grocery_items_id_seq
                    (insert_grocery_item now
                       {| v_list_id := listId;
                          v_category_id := in_category_id input;
                          v_name := in_name input;
                          v_quantity := or_null (in_quantity input);
                          v_added_by_user_id := in_added_by_user_id input;
                          v_is_completed := false;
                          v_completed_by_user_id := None;
                          v_completed_at := None |})) ;;
     ret (hd_error result))
    (fun error => throw error).

(** toggle_item_completion handler, [toggleItemCompletion]. *)
Definition toggleItemCompletion (now : Z) (input : ToggleItemCompletionInput)
  : M (option GroceryItem.t) :=
  try_catch
    (currentItems <- bound [in_item_id input] []
                       (select_from grocery_items
                          (fun i => GroceryItem.id i =? in_item_id input)) ;;
     match currentItems with
     | [] => throw (GroceryItemNotFound (in_item_id input))
     | currentItem :: _ =>
         let isCurrentlyCompleted := GroceryItem.is_completed currentItem in
         let completed_by_user_id :=
           if negb isCurrentlyCompleted then Some (in_user_id input) else None in
         (* Toggle the completion status *)
         result <- bound (nullable completed_by_user_id ++ [in_item_id input]) []
                     (update_grocery_items (in_item_id input)
                        (negb isCurrentlyCompleted)
                        completed_by_user_id
                        (if negb isCurrentlyCompleted then Some now else None)) ;;
         ret (hd_error result)
     end)
    (fun error => throw error).

(** remove_grocery_item.ts, [removeGroceryItem]. *)
Definition removeGroceryItem (input : RemoveGroceryItemInput) : M RemoveResult :=
  try_catch
    (result <- bound [rm_item_id input] [] (delete_grocery_items (rm_item_id input)) ;;
     ret (mkRemoveResult
            ((match rowCount result with Some n => n | None => 0 end) >? 0)))
    (fun error => throw error).

(** get_current_week_list handler, [getCurrentWeekList]. *)
Definition getCurrentWeekList (zone : HostZone.Zone) (now : Z)
    (input : GetCurrentWeekListInput) : M (list GroceryItemWithCategory) :=
  try_catch
    (let weekStartStr := HostZone.weekStartStr zone now in
     let weekEndStr := HostZone.weekEndStr zone now in
     results <- bound [in_couple_id input] [weekStartStr; weekEndStr]
                  (select_items_lists_categories
                     (fun r =>
                        (GroceryList.couple_id (j_grocery_lists r) =? in_couple_id input)
                        && (GroceryList.week_start (j_grocery_lists r) >=? weekStartStr)
                        && (GroceryList.week_start (j_grocery_lists r) <=? weekEndStr))) ;;
     ret (map transform results))
    (fun error => throw error).

(** create_couple handler, [createCouple]. *)
Definition createCouple (clock : Z) (input : CreateCoupleInput)
  : MD (option Couple.t) :=
  (try_catchD
     ((* Verify both users exist *)
      user1 <- lift (bound [cc_user1_id input] []
                       (select_from users (fun u => User.id u =? cc_user1_id input))) ;;
      user2 <- lift (bound [cc_user2_id input] []
                       (select_from users (fun u => User.id u =? cc_user2_id input))) ;;
      throw_ifD (Nat.eqb (List.length user1) 0)
        (Thrown (UserDoesNotExist (cc_user1_id input))) ;;;
      throw_ifD (Nat.eqb (List.length user2) 0)
        (Thrown (UserDoesNotExist (cc_user2_id input))) ;;;
      (* Insert couple record *)
      result <- boundD [cc_user1_id input; cc_user2_id input] []
                  (nextvalD "couples_id_seq" couples_id_seq
                     (insert_couple clock (cc_user1_id input) (cc_user2_id input))) ;;
      retD (hd_error result))
     (fun error => throwD error))%database.

(** create_grocery_list handler, [createGroceryList]. *)
Definition createGroceryList (clock : Z) (input : CreateGroceryListInput)
  : MD Schema.GroceryList :=
  (try_catchD
     ((* Verify couple exists first *)
      existingCouple <- lift (bound [cl_couple_id input] []
                                (select_from couples
                                   (fun c => Couple.id c =? cl_couple_id input))) ;;
      throw_ifD (Nat.eqb (List.length existingCouple) 0)
        (CoupleDoesNotExist (cl_couple_id input)) ;;;
      (* Insert grocery list record - convert Date to string *)
      result <- lift (bound [cl_couple_id input]
                        [JsDate.toISODate (cl_week_start input)]
                        (nextval "grocery_lists_id_seq" grocery_lists_id_seq
                           (insert_grocery_list clock (cl_couple_id input)
                              (JsDate.toISODate (cl_week_start input))))) ;;
      (* Convert string back to Date before returning *)
      match result with
      | [] => throwD (Thrown TypeError)
      | groceryList :: _ => retD (with_date groceryList)
      end)
     (fun error => throwD error))%database.

(** get_grocery_lists.ts, [getGroceryLists]. *)
Definition getGroceryLists (coupleId : Z) : MD (list Schema.GroceryList) :=
  (try_catchD
     (results <- lift (bound [coupleId] []
                         (select_from_order_by_desc grocery_lists
                            (fun l => GroceryList.couple_id l =? coupleId)
                            GroceryList.week_start)) ;;
      (* Convert week_start from string to Date object *)
      retD (map with_date results))
     (fun error => throwD error))%database.

(** The membership condition of the query, on a list row. *)
Definition in_window (zone : HostZone.Zone) (now couple : Z) (l : GroceryList.t) : bool :=
  (GroceryList.couple_id l =? couple)
  && (GroceryList.week_start l >=? HostZone.weekStartStr zone now)
  && (GroceryList.week_start l <=? HostZone.weekEndStr zone now).

(** The two dates of the query are texts the database reads. *)
Definition week_readable (zone : HostZone.Zone) (now : Z) : bool :=
  date_text (HostZone.weekStartStr zone now) && date_text (HostZone.weekEndStr zone now).

End Driver.

(** The rows of the join whose list satisfies [keep], as the query handler
    returns them, and those that come from one item. *)
Definition rows_where (keep : GroceryList.t -> bool) (s : Store)
  : list GroceryItemWithCategory :=
  map transform (filter (fun r => keep (j_grocery_lists r)) (joined_rows s)).

Definition item_rows_where (keep : GroceryList.t -> bool) (s : Store) (i : GroceryItem.t)
  : list GroceryItemWithCategory :=
  map transform (filter (fun r => keep (j_grocery_lists r)) (rows_of_item s i)).

(** The client's row after a successful remote toggle. *)
Definition optimistic_row (itemId : Z) (item : GroceryItemWithCategory)
  : GroceryItemWithCategory :=
  if w_id item =? itemId then
    {| w_id := w_id item;
       w_list_id := w_list_id item;
       w_category_id := w_category_id item;
       w_name := w_name item;
       w_quantity := w_quantity item;
       w_is_completed := negb (w_is_completed item);
       w_added_by_user_id := w_added_by_user_id item;
       w_completed_by_user_id := if w_is_completed item then None else Some USER_ID;
       w_created_at := w_created_at item;
       w_completed_at := w_completed_at item;
       w_category := w_category item |}
  else item.

(** The first and the last millisecond of the week of [now], Monday
    00:00:00.000 through Sunday 23:59:59.999, on a host at [offset]. *)
Definition week_first (offset now : Z) : Z :=
  monday_of offset now * JsDate.msPerDay - offset.

Definition week_last (offset now : Z) : Z :=
  (monday_of offset now + 7) * JsDate.msPerDay - 1 - offset.

(** The smallest number above the [integer] columns; the input schemas
    accept it. *)
Definition beyond_int4 : Z := 2147483648.

(** Sunday 2024-11-03 23:30 in New York (04:30Z of the 4th), the day the
    clocks went back; Wednesday 2024-07-03 12:00 there (16:00Z). *)
Definition fall_back_sunday : Z := 1730694600000.
Definition july_wednesday : Z := 1720022400000.

(** The host one hour east of UTC, and [mixed_roles] with a list of couple
    2 for Monday 2024-01-01. *)
Definition utc_plus_1 : Z := 3600000.

Definition mixed_roles_monday : Store :=
  {| users := [alice; bob; carol];
     couples := [Couple.mk 1 1 3 0; Couple.mk 2 3 2 0];
     categories := [produce];
     grocery_lists := [GroceryList.mk 1 2 19723 0];
     grocery_items := [];
     grocery_lists_id_seq := 2;
     grocery_items_id_seq := 1 |}.

(** 10000-01-01T00:00Z, the first instant [toISOString] writes with a
    signed year. *)
Definition year_10000 : Z := 253402300800000.

(* ================================================================== *)
(** * Properties *)

(** ** Dates *)

Module JsDateFacts.
Import JsDate.

Lemma msPerDay_pos : 0 < msPerDay.
Proof. reflexivity. Qed.

Lemma TimeWithinDay_range (t : Z) : 0 <= TimeWithinDay t < msPerDay.
Proof. apply Z.mod_pos_bound, msPerDay_pos. Qed.

Lemma Day_MakeDate (d t : Z) : 0 <= t < msPerDay -> Day (MakeDate d t) = d.
Proof.
  intros Ht. unfold Day, MakeDate.
  rewrite Z.add_comm, Z.div_add by (pose proof msPerDay_pos; lia).
  rewrite Z.div_small by exact Ht. reflexivity.
Qed.

Lemma TimeWithinDay_MakeDate (d t : Z) :
  0 <= t < msPerDay -> TimeWithinDay (MakeDate d t) = t.
Proof.
  intros Ht. unfold TimeWithinDay, MakeDate.
  rewrite Z.add_comm, Z.mod_add by (pose proof msPerDay_pos; lia).
  apply Z.mod_small, Ht.
Qed.

Lemma MakeDate_Day (t : Z) : MakeDate (Day t) (TimeWithinDay t) = t.
Proof.
  unfold MakeDate, Day, TimeWithinDay.
  pose proof (Z.div_mod t msPerDay). pose proof msPerDay_pos. lia.
Qed.

Lemma LocalTime_UTC (tz t : Z) : LocalTime tz (UTC tz t) = t.
Proof. unfold LocalTime, UTC. lia. Qed.

(** [d.setDate(d.getDate() + k)] moves the local day by [k]. *)
Lemma setDate_getDate (tz t k : Z) :
  setDate tz t (getDate tz t + k)
  = UTC tz (MakeDate (Day (LocalTime tz t) + k) (TimeWithinDay (LocalTime tz t))).
Proof. unfold setDate, getDate. f_equal. f_equal. lia. Qed.

Lemma setDate_getDate_minus (tz t k : Z) :
  setDate tz t (getDate tz t - k)
  = UTC tz (MakeDate (Day (LocalTime tz t) - k) (TimeWithinDay (LocalTime tz t))).
Proof. unfold setDate, getDate. f_equal. f_equal. lia. Qed.

Lemma getDay_range (tz t : Z) : 0 <= getDay tz t < 7.
Proof. unfold getDay, WeekDay. apply Z.mod_pos_bound. lia. Qed.

(** 2024-01-01 is day 19723, a Monday; 2024-02-29 is day 19782. *)
Example DateOfDay_samples :
  DateOfDay 19723 = 1 /\ WeekDay (19723 * msPerDay) = 1
  /\ DateOfDay 19782 = 29 /\ DateOfDay 19783 = 1 /\ DateOfDay (-1) = 31.
Proof. repeat split. Qed.

(** [setDate] with an out-of-range day rolls into the neighbouring month:
    2024-01-03 12:00 UTC, [setDate(1 - 2)] is 2023-12-30 12:00 UTC. *)
Example setDate_rolls_back :
  setDate 0 (19725 * msPerDay + 43200000) (-1) = 19721 * msPerDay + 43200000.
Proof. reflexivity. Qed.

End JsDateFacts.

(** ** Week resolution *)

Section WeekFacts.
Import JsDate JsDateFacts.
Variable tz : Z.

(** The value of the week start: local midnight of the Monday. *)
Lemma getCurrentWeekStart_value (now : Z) :
  getCurrentWeekStart tz now
  = UTC tz (MakeDate (Day (LocalTime tz now) - days_to_monday tz now) 0).
Proof.
  unfold getCurrentWeekStart, days_to_monday.
  rewrite setDate_getDate. unfold setHours.
  rewrite LocalTime_UTC, Day_MakeDate by apply TimeWithinDay_range.
  f_equal. unfold MakeTime. simpl (0 * _ + _ * _ + _ * _ + 0).
  f_equal. destruct (getDay tz now =? 0); lia.
Qed.

Lemma currentWeekStart_value (now : Z) :
  currentWeekStart tz now
  = UTC tz (MakeDate (Day (LocalTime tz now) - days_to_monday tz now) 0).
Proof.
  unfold currentWeekStart, days_to_monday.
  rewrite setDate_getDate_minus. unfold setHours.
  rewrite LocalTime_UTC, Day_MakeDate by apply TimeWithinDay_range.
  reflexivity.
Qed.

(** The two server call sites compute the same instant. *)
Lemma week_start_call_sites_agree (now : Z) :
  currentWeekStart tz now = getCurrentWeekStart tz now.
Proof. now rewrite currentWeekStart_value, getCurrentWeekStart_value. Qed.

Lemma currentWeekEnd_value (now : Z) :
  currentWeekEnd tz now
  = UTC tz (MakeDate (Day (LocalTime tz now) - days_to_monday tz now + 6) 86399999).
Proof.
  unfold currentWeekEnd. rewrite currentWeekStart_value.
  rewrite setDate_getDate. unfold setHours.
  rewrite !LocalTime_UTC.
  rewrite (Day_MakeDate _ 0), (TimeWithinDay_MakeDate _ 0)
    by (unfold msPerDay; lia).
  rewrite Day_MakeDate by (unfold msPerDay; lia).
  reflexivity.
Qed.

Lemma days_to_monday_range (now : Z) : 0 <= days_to_monday tz now <= 6.
Proof.
  unfold days_to_monday. pose proof (getDay_range tz now).
  destruct (getDay tz now =? 0) eqn:E; lia.
Qed.

Lemma monday_weekday (now : Z) :
  (Day (LocalTime tz now) - days_to_monday tz now + 4) mod 7 = 1.
Proof.
  unfold days_to_monday, getDay, WeekDay.
  set (d := Day (LocalTime tz now)).
  destruct ((d + 4) mod 7 =? 0) eqn:E.
  - apply Z.eqb_eq in E. Z.div_mod_to_equations. lia.
  - apply Z.eqb_neq in E. Z.div_mod_to_equations. lia.
Qed.
End WeekFacts.


(** ** Rows selected by a predicate *)

Section SelectFacts.
Context {R : Type}.
Variable p : R -> bool.

Lemma length_filter_zero (l : list R) :
  Nat.eqb (List.length (filter p l)) 0 = negb (existsb p l).
Proof.
  induction l as [|x l IH]; simpl; [reflexivity|].
  destruct (p x); simpl; [reflexivity | exact IH].
Qed.

Lemma filter_none (l : list R) : existsb p l = false -> filter p l = [].
Proof.
  induction l as [|x l IH]; simpl; [reflexivity|].
  destruct (p x); simpl; [discriminate | exact IH].
Qed.

Lemma filter_some (l : list R) :
  existsb p l = true -> exists x rest, filter p l = x :: rest /\ p x = true.
Proof.
  induction l as [|x l IH]; simpl; [discriminate|].
  destruct (p x) eqn:E; simpl; intros H.
  - exists x, (filter p l). split; [reflexivity | exact E].
  - exact (IH H).
Qed.

Lemma existsb_filter_nil (l : list R) : filter p l = [] -> existsb p l = false.
Proof.
  intros H. destruct (existsb p l) eqn:E; [|reflexivity].
  destruct (filter_some l E) as (x & r & Hx & _). congruence.
Qed.

Lemma hd_error_filter (l : list R) : hd_error (filter p l) = find p l.
Proof.
  induction l as [|x l IH]; simpl; [reflexivity|].
  destruct (p x); simpl; [reflexivity | exact IH].
Qed.

Lemma count_positive (l : list R) :
  (Z.of_nat (List.length (filter p l)) >? 0) = existsb p l.
Proof.
  induction l as [|x l IH]; simpl; [reflexivity|].
  destruct (p x); simpl; [|exact IH].
  apply Z.gtb_lt. lia.
Qed.

Lemma filter_complement_clears (l : list R) :
  existsb p (filter (fun x => negb (p x)) l) = false.
Proof.
  induction l as [|x l IH]; simpl; [reflexivity|].
  destruct (p x) eqn:E; simpl; [exact IH|]. rewrite E. exact IH.
Qed.

Lemma filter_complement_length (l : list R) :
  (List.length (filter (fun x => negb (p x)) l) <? List.length l)%nat
  = existsb p l.
Proof.
  assert (Hle : forall l', (List.length (filter (fun x => negb (p x)) l')
                            <= List.length l')%nat).
  { induction l' as [|y l' IH']; simpl; [lia|].
    destruct (p y); simpl; lia. }
  induction l as [|x l IH]; simpl; [reflexivity|].
  destruct (p x); simpl.
  - apply Nat.ltb_lt. specialize (Hle l). lia.
  - exact IH.
Qed.
End SelectFacts.

(** ** Remove item *)


(** ** Toggle completion *)

Section UpdateFacts.
Variable hit : GroceryItem.t -> bool.
Variable set : GroceryItem.t -> GroceryItem.t.
Hypothesis set_keeps_hit : forall i, hit (set i) = hit i.

Let update := fun i => if hit i then set i else i.

Lemma filter_hit_update (l : list GroceryItem.t) :
  filter hit (map update l) = map set (filter hit l).
Proof.
  induction l as [|x l IH]; simpl; [reflexivity|].
  unfold update in *. destruct (hit x) eqn:E.
  - rewrite set_keeps_hit, E. simpl. f_equal. exact IH.
  - rewrite E. exact IH.
Qed.

Lemma filter_miss_update (l : list GroceryItem.t) :
  filter (fun i => negb (hit i)) (map update l)
  = filter (fun i => negb (hit i)) l.
Proof.
  induction l as [|x l IH]; simpl; [reflexivity|].
  unfold update in *. destruct (hit x) eqn:E.
  - rewrite set_keeps_hit, E. simpl. exact IH.
  - rewrite E. simpl. f_equal. exact IH.
Qed.
End UpdateFacts.

Lemma set_completion_id (b : bool) (u t : option Z) (i : GroceryItem.t) :
  GroceryItem.id (set_completion b u t i) = GroceryItem.id i.
Proof. reflexivity. Qed.

Lemma toggle_missing (now : Z) (input : ToggleItemCompletionInput) (s : Store) :
  item_by_id s (in_item_id input) = None ->
  toggleItemCompletion now input s
  = (inl (GroceryItemNotFound (in_item_id input)), s).
Proof.
  unfold item_by_id, toggleItemCompletion, try_catch, bind, select_from.
  destruct (filter _ (grocery_items s)); [reflexivity | discriminate].
Qed.

Lemma toggle_found (now : Z) (input : ToggleItemCompletionInput) (s : Store)
    (i : GroceryItem.t) :
  item_by_id s (in_item_id input) = Some i ->
  toggleItemCompletion now input s
  = if GroceryItem.is_completed i then
      (inr (Some (set_completion false None None i)),
       toggled_store s (in_item_id input) false None None)
    else if has_user s (in_user_id input) then
      (inr (Some (set_completion true (Some (in_user_id input)) (Some now) i)),
       toggled_store s (in_item_id input) true (Some (in_user_id input)) (Some now))
    else
      (inl (ConstraintViolation "grocery_items_completed_by_user_id_users_id_fk"), s).
Proof.
  unfold item_by_id, toggleItemCompletion, try_catch, bind, select_from,
    update_grocery_items, toggled_store, ret, throw.
  destruct (filter _ (grocery_items s)) as [|i0 rest] eqn:F; [discriminate|].
  intros [= ->].
  assert (E : existsb (fun x => GroceryItem.id x =? in_item_id input)
                (grocery_items s) = true).
  { destruct (existsb _ (grocery_items s)) eqn:E; [reflexivity|].
    rewrite (filter_none _ _ E) in F. discriminate. }
  rewrite E, F.
  destruct (GroceryItem.is_completed i); simpl; [reflexivity|].
  destruct (has_user s (in_user_id input)); reflexivity.
Qed.

Lemma item_by_id_toggled (s : Store) (id : Z) (b : bool) (u t : option Z) :
  item_by_id (toggled_store s id b u t) id
  = option_map (set_completion b u t) (item_by_id s id).
Proof.
  unfold item_by_id, toggled_store. simpl.
  rewrite (filter_hit_update (fun i => GroceryItem.id i =? id)
             (set_completion b u t) (fun i => eq_refl)).
  destruct (filter _ (grocery_items s)); reflexivity.
Qed.

Lemma has_item_by_id (s : Store) (id : Z) :
  has_grocery_item s id = match item_by_id s id with Some _ => true | None => false end.
Proof.
  unfold has_grocery_item, item_by_id.
  destruct (existsb _ (grocery_items s)) eqn:E.
  - destruct (filter_some _ _ E) as (x & r & -> & _). reflexivity.
  - now rewrite (filter_none _ _ E).
Qed.



Lemma set_completion_same (i : GroceryItem.t) :
  set_completion (GroceryItem.is_completed i) (GroceryItem.completed_by_user_id i)
    (GroceryItem.completed_at i) i = i.
Proof. destruct i; reflexivity. Qed.

Lemma set_completion_twice (b b' : bool) (u u' t t' : option Z) (i : GroceryItem.t) :
  set_completion b' u' t' (set_completion b u t i) = set_completion b' u' t' i.
Proof. reflexivity. Qed.

Lemma toggled_store_others (s : Store) (id : Z) (b : bool) (u t : option Z) :
  filter (fun i => negb (GroceryItem.id i =? id)) (grocery_items (toggled_store s id b u t))
  = filter (fun i => negb (GroceryItem.id i =? id)) (grocery_items s).
Proof.
  unfold toggled_store. simpl.
  apply (filter_miss_update (fun i => GroceryItem.id i =? id)
           (set_completion b u t) (fun i => eq_refl)).
Qed.

(** C4 (amended). For an existing item [i] and an existing acting user, two
    successive toggles both succeed, the first flips the flag and the second
    flips it back; every other row and every other table is as before.  The
    row after the two toggles is [i] itself when [i] was incomplete with both
    completion fields null; when [i] was complete it is [i] with
    completed-by the acting user and completed-at the time of the second
    toggle (who completed it first, and when, is not restored). *)
Theorem C4_toggle_twice (now1 now2 : Z) (input : ToggleItemCompletionInput)
    (s : Store) (i : GroceryItem.t) :
  item_by_id s (in_item_id input) = Some i ->
  has_user s (in_user_id input) = true ->
  exists r1 s1 r2 s2,
    toggleItemCompletion now1 input s = (inr (Some r1), s1)
    /\ toggleItemCompletion now2 input s1 = (inr (Some r2), s2)
    /\ GroceryItem.is_completed r1 = negb (GroceryItem.is_completed i)
    /\ GroceryItem.is_completed r2 = GroceryItem.is_completed i
    /\ item_by_id s2 (in_item_id input) = Some r2
    /\ r2 = (if GroceryItem.is_completed i
             then set_completion true (Some (in_user_id input)) (Some now2) i
             else set_completion false None None i)
    /\ (GroceryItem.is_completed i = false ->
        GroceryItem.completed_by_user_id i = None ->
        GroceryItem.completed_at i = None -> r2 = i)
    /\ filter (fun x => negb (GroceryItem.id x =? in_item_id input)) (grocery_items s2)
       = filter (fun x => negb (GroceryItem.id x =? in_item_id input)) (grocery_items s)
    /\ (users s2, couples s2, categories s2, grocery_lists s2)
       = (users s, couples s, categories s, grocery_lists s).
Proof.
  intros Hi Hu.
  rewrite (toggle_found now1 input s i Hi), Hu.
  destruct (GroceryItem.is_completed i) eqn:Hc.
  - (* complete -> incomplete -> complete *)
    set (s1 := toggled_store s (in_item_id input) false None None).
    assert (H1 : item_by_id s1 (in_item_id input)
                 = Some (set_completion false None None i)).
    { unfold s1. rewrite item_by_id_toggled, Hi. reflexivity. }
    do 2 eexists. exists (set_completion true (Some (in_user_id input)) (Some now2) i).
    exists (toggled_store s1 (in_item_id input) true (Some (in_user_id input)) (Some now2)).
    rewrite (toggle_found now2 input s1 _ H1).
    change (has_user s1 (in_user_id input)) with (has_user s (in_user_id input)).
    rewrite Hu. cbn [GroceryItem.is_completed set_completion].
    repeat split.
    + rewrite item_by_id_toggled, H1. reflexivity.
    + discriminate.
    + unfold s1. now rewrite !toggled_store_others.
  - (* incomplete -> complete -> incomplete *)
    set (s1 := toggled_store s (in_item_id input) true (Some (in_user_id input)) (Some now1)).
    assert (H1 : item_by_id s1 (in_item_id input)
                 = Some (set_completion true (Some (in_user_id input)) (Some now1) i)).
    { unfold s1. rewrite item_by_id_toggled, Hi. reflexivity. }
    do 2 eexists. exists (set_completion false None None i).
    exists (toggled_store s1 (in_item_id input) false None None).
    rewrite (toggle_found now2 input s1 _ H1).
    cbn [GroceryItem.is_completed set_completion].
    repeat split.
    + rewrite item_by_id_toggled, H1. reflexivity.
    + intros _ Hu' Ht'. rewrite <- (set_completion_same i) at 2.
      now rewrite Hc, Hu', Ht'.
    + unfold s1. now rewrite !toggled_store_others.
Qed.

Lemma C4_toggle_twice_witness :
  exists r1 s1 r2 s2,
    toggleItemCompletion 200 (mkToggleItemCompletionInput 1 2) (with_item open_item)
    = (inr (Some r1), s1)
    /\ toggleItemCompletion 300 (mkToggleItemCompletionInput 1 2) s1
       = (inr (Some r2), s2)
    /\ GroceryItem.is_completed r1 = true
    /\ r2 = open_item
    /\ item_by_id s2 1 = Some open_item.
Proof.
  destruct (C4_toggle_twice 200 300 (mkToggleItemCompletionInput 1 2)
              (with_item open_item) open_item eq_refl eq_refl)
    as (r1 & s1 & r2 & s2 & H1 & H2 & Hc1 & _ & Hby & _ & Hsame & _).
  exists r1, s1, r2, s2.
  pose proof (Hsame eq_refl eq_refl eq_refl) as E.
  split; [exact H1|]. split; [exact H2|]. split; [exact Hc1|].
  split; [exact E|]. rewrite <- E. exact Hby.
Defined.

(** C4 as stated fails: an item Alice completed at time 100, toggled twice
    by Bob (at 200 and 300), ends complete again, but completed by Bob at
    300: not its original state. *)
Lemma C4_counterexample_completed_item :
  let input := mkToggleItemCompletionInput 1 2 in
  let s := with_item done_item in
  let s1 := snd (toggleItemCompletion 200 input s) in
  let s2 := snd (toggleItemCompletion 300 input s1) in
  item_by_id s 1 = Some done_item
  /\ has_user s 2 = true
  /\ item_by_id s2 1
     = Some (GroceryItem.mk 1 1 1 "Test Item" (Some "1 unit"%string) true 1
               (Some 2) 0 (Some 300))
  /\ item_by_id s2 1 <> item_by_id s 1.
Proof. repeat split. discriminate. Qed.

(** ** Stepping through a handler *)

Section Steps.
Variable R : Store -> Store -> Prop.
Hypothesis R_refl : forall s, R s s.
Hypothesis R_trans : forall s1 s2 s3, R s1 s2 -> R s2 s3 -> R s1 s3.

Lemma steps_ret {A : Type} (a : A) : steps R (ret a).
Proof. intros s. apply R_refl. Qed.

Lemma steps_throw {A : Type} (e : error) : steps R (@throw A e).
Proof. intros s. apply R_refl. Qed.

Lemma steps_throw_if (b : bool) (e : error) : steps R (throw_if b e).
Proof. intros s. destruct b; apply R_refl. Qed.

Lemma steps_select {T : Type} (table : Store -> list T) (p : T -> bool) :
  steps R (select_from table p).
Proof. intros s. apply R_refl. Qed.

Lemma steps_bind {A B : Type} (m : M A) (k : A -> M B) :
  steps R m -> (forall a, steps R (k a)) -> steps R (bind m k).
Proof.
  intros Hm Hk s. unfold bind. specialize (Hm s).
  destruct (m s) as [[e|a] s']; simpl in *; [exact Hm|].
  eapply R_trans; [exact Hm | apply Hk].
Qed.

Lemma steps_try_catch {A : Type} (body : M A) (handler : error -> M A) :
  steps R body -> (forall e, steps R (handler e)) -> steps R (try_catch body handler).
Proof.
  intros Hm Hk s. unfold try_catch. specialize (Hm s).
  destruct (body s) as [[e|a] s']; simpl in *; [|exact Hm].
  eapply R_trans; [exact Hm | apply Hk].
Qed.
End Steps.

(** A handler that rethrows is its body. *)
Lemma try_catch_rethrow {A : Type} (body : M A) (s : Store) :
  try_catch body (fun error => throw error) s = body s.
Proof. unfold try_catch, throw. destruct (body s) as [[e|a] s']; reflexivity. Qed.

Ltac step_through lemmas :=
  cbv zeta;
  repeat first
    [ apply steps_try_catch | apply steps_bind | apply steps_select
    | apply steps_throw_if | apply steps_throw | apply steps_ret
    | lemmas
    | match goal with
      | |- forall _, _ => intro
      | |- steps _ (match ?x with _ => _ end) => destruct x
      end ].

(** ** The completion invariant *)

Lemma appends_open_rows_refl (s : Store) : appends_open_rows s s.
Proof. exists []. split; [now rewrite app_nil_r | constructor]. Qed.

Lemma appends_open_rows_trans (s1 s2 s3 : Store) :
  appends_open_rows s1 s2 -> appends_open_rows s2 s3 -> appends_open_rows s1 s3.
Proof.
  intros (r1 & E1 & F1) (r2 & E2 & F2). exists (r1 ++ r2). split.
  - now rewrite E2, E1, app_assoc.
  - apply Forall_app. split; assumption.
Qed.

Lemma appends_open_rows_same (s s' : Store) :
  grocery_items s' = grocery_items s -> appends_open_rows s s'.
Proof. intros E. exists []. split; [now rewrite app_nil_r | constructor]. Qed.

Lemma insert_grocery_list_appends (clock couple week : Z) :
  steps appends_open_rows (insert_grocery_list clock couple week).
Proof.
  intros s. unfold insert_grocery_list.
  destruct (negb (has_couple s couple)); [now apply appends_open_rows_same|].
  destruct (has_grocery_list s _); now apply appends_open_rows_same.
Qed.

Lemma insert_grocery_item_appends (clock : Z) (v : GroceryItemValues) :
  v_is_completed v = false ->
  v_completed_by_user_id v = None ->
  v_completed_at v = None ->
  steps appends_open_rows (insert_grocery_item clock v).
Proof.
  intros Hc Hu Ht s. unfold insert_grocery_item.
  repeat match goal with
         | |- context [if ?b then _ else _] =>
             destruct b; [now apply appends_open_rows_same|]
         end.
  eexists [_]. split; [reflexivity|].
  constructor; [|constructor]. cbn. auto.
Qed.

(** An add appends at most one row, incomplete and with both completion
    fields null, and rewrites no existing row. *)
Lemma addGroceryItem_appends (tz now : Z) (input : AddGroceryItemInput) :
  steps appends_open_rows (addGroceryItem tz now input).
Proof.
  unfold addGroceryItem.
  pose proof appends_open_rows_refl. pose proof appends_open_rows_trans.
  step_through ltac:(first [ apply insert_grocery_list_appends
                           | apply insert_grocery_item_appends; reflexivity ]);
    eauto.
Qed.

Lemma removeGroceryItem_items (input : RemoveGroceryItemInput) (s : Store) :
  grocery_items (snd (removeGroceryItem input s))
  = filter (fun i => negb (GroceryItem.id i =? rm_item_id input)) (grocery_items s).
Proof. reflexivity. Qed.

Lemma fields_follow_flag_consistent (i : GroceryItem.t) :
  fields_follow_flag i -> completion_consistent i.
Proof.
  unfold fields_follow_flag, completion_consistent.
  destruct (GroceryItem.is_completed i); intros [H1 H2]; split.
  - reflexivity.
  - intros _. split; assumption.
  - intros [H _]. congruence.
  - discriminate.
Qed.

Lemma run_op_fields_follow_flag (op : item_op) (s : Store) :
  Forall fields_follow_flag (grocery_items s) ->
  Forall fields_follow_flag (grocery_items (run_op op s)).
Proof.
  intros H. destruct op as [tz now input | now input | input]; cbn [run_op].
  - destruct (addGroceryItem_appends tz now input s) as (rows & -> & Hrows).
    apply Forall_app. split; [exact H|].
    eapply Forall_impl; [|exact Hrows].
    intros r (Hc & Hu & Ht). unfold fields_follow_flag. now rewrite Hc.
  - destruct (item_by_id s (in_item_id input)) as [i|] eqn:F.
    + rewrite (toggle_found now input s i F).
      destruct (GroceryItem.is_completed i);
        [|destruct (has_user s (in_user_id input))]; simpl; try exact H.
      * apply Forall_map. eapply Forall_impl; [|exact H].
        intros a Ha. destruct (GroceryItem.id a =? in_item_id input); [|exact Ha].
        split; reflexivity.
      * apply Forall_map. eapply Forall_impl; [|exact H].
        intros a Ha. destruct (GroceryItem.id a =? in_item_id input); [|exact Ha].
        split; discriminate.
    + rewrite (toggle_missing now input s F). exact H.
  - rewrite removeGroceryItem_items.
    apply Forall_forall. intros i Hi. apply filter_In in Hi.
    rewrite Forall_forall in H. apply H, Hi.
Qed.

Lemma reachable_fields_follow_flag (s : Store) :
  reachable s -> Forall fields_follow_flag (grocery_items s).
Proof.
  induction 1 as [s Hs | s op _ IH].
  - rewrite Hs. constructor.
  - apply run_op_fields_follow_flag, IH.
Qed.

(** C3. In every store reached from a store without items by any sequence
    of [addGroceryItem], [toggleItemCompletion] and [removeGroceryItem]
    calls (failed calls included), every item has completed-by and
    completed-at both non-null if and only if it is complete. *)
Theorem C3_completion_invariant (s : Store) (i : GroceryItem.t) :
  reachable s ->
  In i (grocery_items s) ->
  completion_consistent i.
Proof.
  intros Hs Hi. apply fields_follow_flag_consistent.
  pose proof (reachable_fields_follow_flag s Hs) as H.
  rewrite Forall_forall in H. exact (H i Hi).
Qed.

Lemma C3_completion_invariant_witness :
  let s := run_op (OpToggle 200 (mkToggleItemCompletionInput 1 2))
             (run_op (OpAdd 0 wednesday_noon (bananas None 1)) household) in
  let i := GroceryItem.mk 1 1 1 "Bananas" (Some "2 bunches"%string) true 1
             (Some 2) wednesday_noon (Some 200) in
  reachable s /\ In i (grocery_items s) /\ completion_consistent i.
Proof.
  intros s i.
  assert (Hs : reachable s).
  { unfold s. apply reachable_step, reachable_step, reachable_init. reflexivity. }
  assert (Hi : In i (grocery_items s)).
  { left. reflexivity. }
  split; [exact Hs|]. split; [exact Hi|].
  exact (C3_completion_invariant s i Hs Hi).
Defined.

(** ** Add item: the equations of the handler *)

Lemma bind_select {T B : Type} (table : Store -> list T) (p : T -> bool)
    (k : list T -> M B) (s : Store) :
  bind (select_from table p) k s = k (filter p (table s)) s.
Proof. reflexivity. Qed.

Lemma bind_throw_if {B : Type} (b : bool) (e : error) (k : unit -> M B) (s : Store) :
  bind (throw_if b e) k s = if b then (inl e, s) else k tt s.
Proof. destruct b; reflexivity. Qed.

Lemma bind_ret {A B : Type} (a : A) (k : A -> M B) (s : Store) :
  bind (ret a) k s = k a s.
Proof. reflexivity. Qed.

Lemma bind_throw {A B : Type} (e : error) (k : A -> M B) (s : Store) :
  bind (throw e) k s = (inl e, s).
Proof. reflexivity. Qed.

Lemma bind_bind {A B C : Type} (m : M A) (k : A -> M B) (h : B -> M C) (s : Store) :
  bind (bind m k) h s = bind m (fun a => bind (k a) h) s.
Proof. unfold bind. destruct (m s) as [[e|a] s']; reflexivity. Qed.

Lemma hd_error_app {T : Type} (a b : list T) :
  hd_error (a ++ b) = match hd_error a with Some x => Some x | None => hd_error b end.
Proof. destruct a; reflexivity. Qed.

(** [allUserCouples[0]] is the couple [first_couple] names. *)
Lemma allUserCouples_head (s : Store) (u : Z) :
  hd_error (filter (fun c => Couple.user1_id c =? u) (couples s)
            ++ filter (fun c => Couple.user2_id c =? u) (couples s))
  = first_couple s u.
Proof. unfold first_couple. now rewrite hd_error_app, !hd_error_filter. Qed.

Lemma find_In_couples (s : Store) (p : Couple.t -> bool) (c : Couple.t) :
  find p (couples s) = Some c -> has_couple s (Couple.id c) = true.
Proof.
  intros H. apply find_some in H as [Hin _].
  unfold has_couple. apply existsb_exists. exists c. split; [exact Hin|].
  apply Z.eqb_refl.
Qed.

Lemma first_couple_exists (s : Store) (u : Z) (c : Couple.t) :
  first_couple s u = Some c -> has_couple s (Couple.id c) = true.
Proof.
  unfold first_couple.
  destruct (find _ (couples s)) eqn:F.
  - intros [= <-]. eapply find_In_couples, F.
  - apply find_In_couples.
Qed.

Lemma first_couple_member (s : Store) (u : Z) (c : Couple.t) :
  first_couple s u = Some c -> In c (couples s) /\ member_of u c.
Proof.
  unfold first_couple, member_of.
  destruct (find (fun c => Couple.user1_id c =? u) (couples s)) eqn:F.
  - intros [= <-]. apply find_some in F as [Hin Hp].
    apply Z.eqb_eq in Hp. auto.
  - intros H. apply find_some in H as [Hin Hp]. apply Z.eqb_eq in Hp. auto.
Qed.

(** A user of exactly one couple resolves to that couple. *)
Lemma sole_couple_is_first (s : Store) (u : Z) (c : Couple.t) :
  In c (couples s) -> member_of u c ->
  (forall c', In c' (couples s) -> member_of u c' -> c' = c) ->
  first_couple s u = Some c.
Proof.
  intros Hin Hm Hsole. unfold first_couple.
  destruct (find (fun c => Couple.user1_id c =? u) (couples s)) as [c1|] eqn:F1.
  - apply find_some in F1 as [Hin1 Hp1]. apply Z.eqb_eq in Hp1.
    f_equal. apply Hsole; [exact Hin1 | now left].
  - destruct (find (fun c => Couple.user2_id c =? u) (couples s)) as [c2|] eqn:F2.
    + apply find_some in F2 as [Hin2 Hp2]. apply Z.eqb_eq in Hp2.
      f_equal. apply Hsole; [exact Hin2 | now right].
    + exfalso. destruct Hm as [Hm|Hm].
      * pose proof (find_none _ _ F1 c Hin) as N. simpl in N.
        apply Z.eqb_neq in N. contradiction.
      * pose proof (find_none _ _ F2 c Hin) as N. simpl in N.
        apply Z.eqb_neq in N. contradiction.
Qed.

Lemma seq_fresh_lists (s : Store) :
  seq_fresh s = true -> has_grocery_list s (grocery_lists_id_seq s) = false.
Proof.
  unfold seq_fresh, has_grocery_list. intros H.
  apply andb_prop in H as [H _]. rewrite forallb_forall in H.
  destruct (existsb _ (grocery_lists s)) eqn:E; [|reflexivity].
  apply existsb_exists in E as (l & Hin & Hl). apply Z.eqb_eq in Hl.
  specialize (H l Hin). apply Z.ltb_lt in H. lia.
Qed.

Lemma seq_fresh_items (s : Store) :
  seq_fresh s = true -> has_grocery_item s (grocery_items_id_seq s) = false.
Proof.
  unfold seq_fresh, has_grocery_item. intros H.
  apply andb_prop in H as [_ H]. rewrite forallb_forall in H.
  destruct (existsb _ (grocery_items s)) eqn:E; [|reflexivity].
  apply existsb_exists in E as (l & Hin & Hl). apply Z.eqb_eq in Hl.
  specialize (H l Hin). apply Z.ltb_lt in H. lia.
Qed.

Lemma has_grocery_list_of_filter (s : Store) (p : GroceryList.t -> bool)
    (l0 : GroceryList.t) (rest : list GroceryList.t) :
  filter p (grocery_lists s) = l0 :: rest ->
  has_grocery_list s (GroceryList.id l0) = true.
Proof.
  intros F. unfold has_grocery_list. apply existsb_exists. exists l0.
  split; [|apply Z.eqb_refl].
  assert (H : In l0 (filter p (grocery_lists s))) by (rewrite F; now left).
  apply filter_In in H. tauto.
Qed.

(** After the two validations the handler is at the list resolution. *)
Ltac validated Hu Hc :=
  unfold addGroceryItem; rewrite try_catch_rethrow;
  rewrite bind_select, bind_throw_if, length_filter_zero;
  unfold has_user in Hu; rewrite Hu; cbn [negb];
  rewrite bind_select, bind_throw_if, length_filter_zero;
  unfold has_category in Hc; rewrite Hc; cbn [negb].

Section AddEquations.
Variables (tz now : Z) (input : AddGroceryItemInput) (s : Store).
Let u := in_added_by_user_id input.
Let k := in_category_id input.

Lemma add_user_missing :
  has_user s u = false ->
  addGroceryItem tz now input s = (inl (UserDoesNotExist u), s).
Proof.
  intros Hu. unfold addGroceryItem. rewrite try_catch_rethrow.
  rewrite bind_select, bind_throw_if, length_filter_zero.
  unfold has_user in Hu. subst u. rewrite Hu. reflexivity.
Qed.

Lemma add_category_missing :
  has_user s u = true ->
  has_category s k = false ->
  addGroceryItem tz now input s = (inl (CategoryDoesNotExist k), s).
Proof.
  intros Hu Hc. unfold addGroceryItem. rewrite try_catch_rethrow.
  rewrite bind_select, bind_throw_if, length_filter_zero.
  unfold has_user in Hu. subst u. rewrite Hu. cbn [negb].
  rewrite bind_select, bind_throw_if, length_filter_zero.
  unfold has_category in Hc. subst k. rewrite Hc. reflexivity.
Qed.

Hypothesis user_exists : has_user s u = true.
Hypothesis category_exists : has_category s k = true.

Lemma add_list_missing (n : Z) :
  in_list_id input = Some n -> n <> 0 ->
  has_grocery_list s n = false ->
  addGroceryItem tz now input s = (inl (GroceryListDoesNotExist n), s).
Proof.
  intros Hn Hnz Hl. subst u k. validated user_exists category_exists.
  rewrite Hn. cbn [truthy]. apply Z.eqb_neq in Hnz. rewrite Hnz. cbn [negb].
  rewrite bind_bind, bind_select.
  unfold has_grocery_list in Hl. rewrite (filter_none _ _ Hl).
  reflexivity.
Qed.

Lemma add_no_couple :
  truthy (in_list_id input) = false ->
  first_couple s u = None ->
  addGroceryItem tz now input s = (inl (NotPartOfAnyCouple u), s).
Proof.
  intros Hn Hc. subst u k. validated user_exists category_exists.
  rewrite Hn. rewrite bind_bind, bind_select, bind_bind, bind_select.
  pose proof (allUserCouples_head s (in_added_by_user_id input)) as Hh.
  rewrite Hc in Hh.
  destruct (filter _ (couples s) ++ _) as [|c0 rest]; [reflexivity | discriminate].
Qed.

Hypothesis fresh : seq_fresh s = true.

Lemma add_explicit_list (n : Z) :
  in_list_id input = Some n -> n <> 0 ->
  has_grocery_list s n = true ->
  addGroceryItem tz now input s
  = (inr (Some (new_item_row now input n s)),
     with_grocery_items s (grocery_items s ++ [new_item_row now input n s])
       (grocery_items_id_seq s + 1)).
Proof.
  intros Hn Hnz Hl. subst u k.
  pose proof user_exists as Hu. pose proof category_exists as Hk.
  validated user_exists category_exists.
  rewrite Hn. cbn [truthy]. apply Z.eqb_neq in Hnz. rewrite Hnz. cbn [negb].
  rewrite bind_bind, bind_select.
  unfold has_grocery_list in Hl.
  destruct (filter_some _ _ Hl) as (l0 & rest & F & _). rewrite F.
  rewrite bind_ret. cbn [fst].
  unfold bind, insert_grocery_item. cbn [v_list_id v_category_id
    v_added_by_user_id v_completed_by_user_id fk_user_opt].
  fold (has_grocery_list s n) in Hl. rewrite Hl, Hk, Hu.
  rewrite (seq_fresh_items s fresh). reflexivity.
Qed.

Variable c : Couple.t.
Hypothesis no_list : truthy (in_list_id input) = false.
Hypothesis resolved : first_couple s u = Some c.

Lemma add_reuse (l0 : GroceryList.t) (rest : list GroceryList.t) :
  lists_for s (Couple.id c) (current_week tz now) = l0 :: rest ->
  addGroceryItem tz now input s
  = (inr (Some (new_item_row now input (GroceryList.id l0) s)),
     with_grocery_items s
       (grocery_items s ++ [new_item_row now input (GroceryList.id l0) s])
       (grocery_items_id_seq s + 1)).
Proof.
  intros F. subst u k.
  pose proof user_exists as Hu. pose proof category_exists as Hk.
  validated user_exists category_exists.
  rewrite no_list. rewrite bind_bind, bind_select, bind_bind, bind_select.
  pose proof (allUserCouples_head s (in_added_by_user_id input)) as Hh.
  rewrite resolved in Hh.
  destruct (filter _ (couples s) ++ _) as [|c0 others]; [discriminate|].
  injection Hh as ->.
  rewrite bind_bind, bind_select.
  unfold lists_for, current_week in F. rewrite F.
  rewrite bind_ret. cbn [fst].
  unfold bind, insert_grocery_item. cbn [v_list_id v_category_id
    v_added_by_user_id v_completed_by_user_id fk_user_opt].
  rewrite (has_grocery_list_of_filter s _ l0 rest F), Hk, Hu.
  rewrite (seq_fresh_items s fresh). reflexivity.
Qed.

Lemma add_create :
  lists_for s (Couple.id c) (current_week tz now) = [] ->
  let l := new_list_row now (Couple.id c) (current_week tz now) s in
  let s1 := with_grocery_lists s (grocery_lists s ++ [l]) (grocery_lists_id_seq s + 1) in
  addGroceryItem tz now input s
  = (inr (Some (new_item_row now input (GroceryList.id l) s)),
     with_grocery_items s1
       (grocery_items s ++ [new_item_row now input (GroceryList.id l) s])
       (grocery_items_id_seq s + 1)).
Proof.
  intros F l s1. subst u k.
  pose proof user_exists as Hu. pose proof category_exists as Hk.
  validated user_exists category_exists.
  rewrite no_list. rewrite bind_bind, bind_select, bind_bind, bind_select.
  pose proof (allUserCouples_head s (in_added_by_user_id input)) as Hh.
  rewrite resolved in Hh.
  destruct (filter _ (couples s) ++ _) as [|c0 others]; [discriminate|].
  injection Hh as ->.
  rewrite bind_bind, bind_select.
  unfold lists_for, current_week in F. rewrite F.
  rewrite bind_bind.
  unfold bind at 1. unfold insert_grocery_list.
  rewrite (first_couple_exists s _ c resolved), (seq_fresh_lists s fresh).
  cbn [negb]. rewrite bind_ret. cbn [fst GroceryList.id].
  unfold bind, insert_grocery_item. cbn [v_list_id v_category_id
    v_added_by_user_id v_completed_by_user_id fk_user_opt].
  assert (Hl : has_grocery_list
                 (with_grocery_lists s
                    (grocery_lists s ++
                     [GroceryList.mk (grocery_lists_id_seq s) (Couple.id c)
                        (JsDate.toISODate (getCurrentWeekStart tz now)) now])
                    (grocery_lists_id_seq s + 1))
                 (grocery_lists_id_seq s) = true).
  { unfold has_grocery_list. cbn [grocery_lists with_grocery_lists].
    rewrite existsb_app. cbn [existsb GroceryList.id].
    rewrite Z.eqb_refl. now rewrite orb_true_r. }
  rewrite Hl. cbn [negb].
  change (has_category (with_grocery_lists _ _ _) ?x) with (has_category s x).
  change (has_user (with_grocery_lists _ _ _) ?x) with (has_user s x).
  change (has_grocery_item (with_grocery_lists _ _ _) ?x) with (has_grocery_item s x).
  fold (has_category s (in_category_id input)) in Hk.
  fold (has_user s (in_added_by_user_id input)) in Hu.
  rewrite Hk, Hu. cbn [negb].
  cbn [grocery_items_id_seq with_grocery_lists].
  rewrite (seq_fresh_items s fresh). reflexivity.
Qed.
End AddEquations.

Lemma seq_fresh_after_add (s : Store) (l : list GroceryList.t) (i : list GroceryItem.t)
    (nl ni : Z) :
  seq_fresh s = true ->
  Forall (fun x => GroceryList.id x = grocery_lists_id_seq s) l -> nl = grocery_lists_id_seq s + 1 ->
  Forall (fun x => GroceryItem.id x = grocery_items_id_seq s) i -> ni = grocery_items_id_seq s + 1 ->
  seq_fresh
    (with_grocery_items (with_grocery_lists s (grocery_lists s ++ l) nl)
       (grocery_items s ++ i) ni) = true.
Proof.
  unfold seq_fresh. intros H Hl -> Hi ->.
  apply andb_prop in H as [H1 H2]. rewrite forallb_forall in H1, H2.
  rewrite Forall_forall in Hl, Hi.
  cbn [grocery_lists grocery_items grocery_lists_id_seq grocery_items_id_seq
       with_grocery_items with_grocery_lists].
  apply andb_true_intro. split; apply forallb_forall; intros x Hx;
    apply in_app_or in Hx as [Hx|Hx]; apply Z.ltb_lt.
  - specialize (H1 x Hx). apply Z.ltb_lt in H1. lia.
  - rewrite (Hl x Hx). lia.
  - specialize (H2 x Hx). apply Z.ltb_lt in H2. lia.
  - rewrite (Hi x Hx). lia.
Qed.

(** ** Add item: list resolution *)




Lemma first_couple_user1 (s : Store) (u : Z) (c : Couple.t) :
  find (fun c => Couple.user1_id c =? u) (couples s) = Some c ->
  first_couple s u = Some c.
Proof. unfold first_couple. now intros ->. Qed.

(** Without a list reference the item goes to a list of the resolved
    couple for the current week start, found or created. *)
Lemma add_couple_path (tz now : Z) (input : AddGroceryItemInput)
    (s : Store) (c : Couple.t) :
  seq_fresh s = true ->
  truthy (in_list_id input) = false ->
  has_user s (in_added_by_user_id input) = true ->
  has_category s (in_category_id input) = true ->
  first_couple s (in_added_by_user_id input) = Some c ->
  exists it s' l,
    addGroceryItem tz now input s = (inr (Some it), s')
    /\ In it (grocery_items s')
    /\ In l (grocery_lists s')
    /\ GroceryItem.list_id it = GroceryList.id l
    /\ GroceryList.couple_id l = Couple.id c
    /\ GroceryList.week_start l = current_week tz now.
Proof.
  intros Hfresh Hn Hu Hk Hc.
  destruct (lists_for s (Couple.id c) (current_week tz now)) as [|l0 rest] eqn:F.
  - pose proof (add_create tz now input s Hu Hk Hfresh c Hn Hc F) as E.
    cbv zeta in E. do 2 eexists.
    exists (new_list_row now (Couple.id c) (current_week tz now) s).
    split; [exact E|].
    cbn [grocery_items grocery_lists with_grocery_items with_grocery_lists].
    split; [apply in_or_app; right; now left|].
    split; [apply in_or_app; right; now left|].
    repeat split.
  - pose proof (add_reuse tz now input s Hu Hk Hfresh c Hn Hc l0 rest F) as E.
    do 2 eexists. exists l0. split; [exact E|].
    cbn [grocery_items grocery_lists with_grocery_items].
    split; [apply in_or_app; right; now left|].
    assert (Hin : In l0 (lists_for s (Couple.id c) (current_week tz now)))
      by (rewrite F; now left).
    unfold lists_for in Hin. apply filter_In in Hin as [Hin Hp].
    apply andb_prop in Hp as [Hp1 Hp2].
    apply Z.eqb_eq in Hp1, Hp2.
    repeat split; assumption.
Qed.



(** ** Add item: failures *)

Lemma no_couple_first_none (s : Store) (u : Z) :
  (forall c, In c (couples s) -> ~ member_of u c) ->
  first_couple s u = None.
Proof.
  intros H. destruct (first_couple s u) as [c|] eqn:F; [|reflexivity].
  apply first_couple_member in F as [Hin Hm]. exfalso. exact (H c Hin Hm).
Qed.




(** ** Query current week *)

Section JoinFacts.
Context {T U : Type}.

Lemma filter_flat_map (p : U -> bool) (f : T -> list U) (l : list T) :
  filter p (flat_map f l) = flat_map (fun x => filter p (f x)) l.
Proof.
  induction l as [|x l IH]; simpl; [reflexivity|].
  now rewrite filter_app, IH.
Qed.

Lemma map_of_flat_map {V : Type} (g : U -> V) (f : T -> list U) (l : list T) :
  map g (flat_map f l) = flat_map (fun x => map g (f x)) l.
Proof.
  induction l as [|x l IH]; simpl; [reflexivity|].
  now rewrite map_app, IH.
Qed.

Lemma filter_key_absent (key : T -> Z) (x : Z) (l : list T) :
  existsb (Z.eqb x) (map key l) = false ->
  filter (fun t => x =? key t) l = [].
Proof.
  induction l as [|a l IH]; simpl; [reflexivity|].
  destruct (x =? key a); simpl; [discriminate | exact IH].
Qed.

(** Under a primary key, selecting by key yields at most the one row
    [find] returns. *)
Lemma filter_by_key (key : T -> Z) (x : Z) (l : list T) :
  unique_ids (map key l) = true ->
  filter (fun t => x =? key t) l
  = match find (fun t => x =? key t) l with Some t => [t] | None => [] end.
Proof.
  induction l as [|a l IH]; simpl; [reflexivity|].
  intros H. apply andb_prop in H as [Ha Hl].
  destruct (x =? key a) eqn:E.
  - apply Z.eqb_eq in E. subst x.
    apply negb_true_iff in Ha. now rewrite (filter_key_absent key _ l Ha).
  - exact (IH Hl).
Qed.
End JoinFacts.

(** The query as a function of the store: with primary keys on lists and
    categories, every item appears at most once, exactly when its owning
    list is of the couple and its week start is between the two bounds the
    handler computed, and it carries its category record; the store is
    only read. *)
Lemma getCurrentWeekList_rows (tz now : Z) (input : GetCurrentWeekListInput)
    (s : Store) :
  unique_ids (map GroceryList.id (grocery_lists s)) = true ->
  unique_ids (map Category.id (categories s)) = true ->
  getCurrentWeekList tz now input s
  = (inr (items_of_lists (in_window tz now (in_couple_id input)) s), s).
Proof.
  intros Hl Hc. unfold getCurrentWeekList. rewrite try_catch_rethrow.
  unfold bind, select_items_lists_categories, ret. f_equal. f_equal.
  rewrite filter_flat_map, map_of_flat_map. unfold items_of_lists.
  apply flat_map_ext. intros i.
  rewrite (filter_by_key GroceryList.id _ _ Hl), (filter_by_key Category.id _ _ Hc).
  unfold owning_list, category_of.
  destruct (find _ (grocery_lists s)) as [l|]; [|reflexivity].
  destruct (find _ (categories s)) as [c|]; simpl; [|reflexivity].
  unfold in_window. destruct (_ && _ && _); reflexivity.
Qed.

(** An item and its category, field by field. *)
Lemma enrich_fields (i : GroceryItem.t) (c : Category.t) :
  enrich i c
  = mkGroceryItemWithCategory (GroceryItem.id i) (GroceryItem.list_id i)
      (GroceryItem.category_id i) (GroceryItem.name i) (GroceryItem.quantity i)
      (GroceryItem.is_completed i) (GroceryItem.added_by_user_id i)
      (GroceryItem.completed_by_user_id i) (GroceryItem.created_at i)
      (GroceryItem.completed_at i) c.
Proof. destruct c. reflexivity. Qed.

(** The two bounds, as dates: the UTC dates of local Monday 00:00:00.000
    and of local Sunday 23:59:59.999. *)
Lemma week_bounds (tz now : Z) :
  weekStartStr tz now = (monday_of tz now * JsDate.msPerDay - tz) / JsDate.msPerDay
  /\ weekEndStr tz now
     = ((monday_of tz now + 6) * JsDate.msPerDay + 86399999 - tz) / JsDate.msPerDay.
Proof.
  unfold weekStartStr, weekEndStr.
  rewrite currentWeekStart_value, currentWeekEnd_value.
  unfold JsDate.toISODate, JsDate.UTC, JsDate.MakeDate, monday_of.
  split; unfold JsDate.Day at 1; f_equal; ring.
Qed.

(** On a host in UTC the bounds are the Monday and the Sunday. *)
Lemma week_bounds_utc (now : Z) :
  weekStartStr 0 now = monday_of 0 now /\ weekEndStr 0 now = monday_of 0 now + 6.
Proof.
  destruct (week_bounds 0 now) as [-> ->].
  unfold JsDate.msPerDay. split.
  - rewrite Z.sub_0_r. apply Z.div_mul. lia.
  - Z.div_mod_to_equations. lia.
Qed.

Lemma in_window_utc (now couple : Z) (l : GroceryList.t) :
  in_window 0 now couple l = monday_to_sunday 0 now couple l.
Proof.
  unfold in_window, monday_to_sunday.
  destruct (week_bounds_utc now) as [-> ->].
  now rewrite Z.geb_leb.
Qed.

(** On a host in UTC the query returns exactly the items of the couple's
    lists whose week start is one of Monday..Sunday of the current week. *)
Lemma getCurrentWeekList_utc (now : Z) (input : GetCurrentWeekListInput) (s : Store) :
  unique_ids (map GroceryList.id (grocery_lists s)) = true ->
  unique_ids (map Category.id (categories s)) = true ->
  getCurrentWeekList 0 now input s
  = (inr (items_of_lists (monday_to_sunday 0 now (in_couple_id input)) s), s).
Proof.
  intros Hl Hc. rewrite (getCurrentWeekList_rows 0 now input s Hl Hc).
  unfold items_of_lists. f_equal. f_equal. apply flat_map_ext. intros i.
  destruct (owning_list s i) as [l|]; [|reflexivity].
  now rewrite in_window_utc.
Qed.

(** West of UTC the upper bound is the date of the next Monday. *)
Lemma week_bounds_west (tz now : Z) :
  - JsDate.msPerDay < tz < 0 ->
  weekStartStr tz now = monday_of tz now /\ weekEndStr tz now = monday_of tz now + 7.
Proof.
  intros Htz. destruct (week_bounds tz now) as [-> ->].
  unfold JsDate.msPerDay in *. split; Z.div_mod_to_equations; lia.
Qed.

(** East of UTC the lower bound is the date of the Sunday before. *)
Lemma week_bounds_east (tz now : Z) :
  0 < tz < JsDate.msPerDay ->
  weekStartStr tz now = monday_of tz now - 1 /\ weekEndStr tz now = monday_of tz now + 6.
Proof.
  intros Htz. destruct (week_bounds tz now) as [-> ->].
  unfold JsDate.msPerDay in *. split; Z.div_mod_to_equations; lia.
Qed.

(** The add-item handler stores and looks up the lower bound: the two
    handlers agree on the date that names the current week. *)
Lemma current_week_is_weekStartStr (tz now : Z) :
  current_week tz now = weekStartStr tz now.
Proof.
  unfold current_week, weekStartStr. now rewrite week_start_call_sites_agree.
Qed.

(** C7 does not hold on a host west of UTC.  Host five hours west of
    UTC, Wednesday 2024-01-03 12:00 local time; the week is
    Monday 2024-01-01 (day 19723) through Sunday 2024-01-07 (day 19729).
    Couple 1 owns a list whose week start is Monday 2024-01-08 (day 19730),
    outside that week; the query for couple 1 returns that list's item all
    the same, because the upper bound it compares with is day 19730. *)
Theorem C7_window_reaches_next_monday :
  let tz := utc_minus_5 in
  let now := wednesday_noon_west in
  let s := planned_ahead in
  JsDate.getDay tz now = 3
  /\ monday_of tz now = 19723
  /\ owning_list s open_item = Some next_monday_list
  /\ GroceryList.week_start next_monday_list = monday_of tz now + 7
  /\ monday_to_sunday tz now 1 next_monday_list = false
  /\ (weekStartStr tz now, weekEndStr tz now) = (19723, 19730)
  /\ getCurrentWeekList tz now (mkGetCurrentWeekListInput 1) s
     = (inr [enrich open_item produce], s).
Proof. repeat split. Qed.

(** ** The input schema of add item *)

(** A payload without [list_id] is refused by the declared schema. *)
Lemma schema_requires_list_id (fields : list (string * Zod.JsValue)) :
  Zod.prop_of fields "list_id" = Zod.JUndefined ->
  Zod.accepts addGroceryItemInputSchema (Zod.JObject fields) = false.
Proof.
  intros H. unfold addGroceryItemInputSchema.
  cbn [Zod.accepts]. rewrite H. reflexivity.
Qed.

(** What passes the schema carries a number as [list_id]. *)
Lemma parsed_list_id_present (v : Zod.JsValue) (input : AddGroceryItemInput) :
  parseAddGroceryItemInput v = Some input ->
  exists n, in_list_id input = Some n.
Proof.
  unfold parseAddGroceryItemInput.
  destruct (Zod.accepts addGroceryItemInputSchema v) eqn:A; [|discriminate].
  destruct v as [| | | | |fields]; try discriminate.
  unfold addGroceryItemInputSchema in A. cbn [Zod.accepts] in A.
  apply andb_prop in A as [A _].
  cbn [Zod.prop].
  destruct (Zod.prop_of fields "list_id") as [| | |n| |]; try discriminate.
  destruct (Zod.as_number _); [|discriminate].
  destruct (Zod.as_string _); [|discriminate].
  destruct (Zod.as_number _); [|discriminate].
  intros [= <-]. exists n. reflexivity.
Qed.

Lemma procedure_requires_list_id (tz now : Z) (fields : list (string * Zod.JsValue))
    (s : Store) :
  Zod.prop_of fields "list_id" = Zod.JUndefined ->
  addGroceryItemProcedure tz now (Zod.JObject fields) s = (inl BadRequest, s).
Proof.
  intros H. unfold addGroceryItemProcedure, parseAddGroceryItemInput.
  now rewrite (schema_requires_list_id fields H).
Qed.

Lemma truthy_absent (input : AddGroceryItemInput) :
  in_list_id input = None -> truthy (in_list_id input) = false.
Proof. now intros ->. Qed.




(** ** The sequences stay ahead *)

Lemma seq_fresh_iff (s : Store) :
  seq_fresh s = true
  <-> (forall l, In l (grocery_lists s) -> GroceryList.id l < grocery_lists_id_seq s)
      /\ (forall i, In i (grocery_items s) -> GroceryItem.id i < grocery_items_id_seq s).
Proof.
  unfold seq_fresh. rewrite andb_true_iff, !forallb_forall.
  split; intros [H1 H2]; split; intros x Hx.
  - apply Z.ltb_lt, H1, Hx.
  - apply Z.ltb_lt, H2, Hx.
  - apply Z.ltb_lt, H1, Hx.
  - apply Z.ltb_lt, H2, Hx.
Qed.

Lemma keeps_seq_fresh_refl (s : Store) : keeps_seq_fresh s s.
Proof. intros H. exact H. Qed.

Lemma keeps_seq_fresh_trans (s1 s2 s3 : Store) :
  keeps_seq_fresh s1 s2 -> keeps_seq_fresh s2 s3 -> keeps_seq_fresh s1 s3.
Proof. unfold keeps_seq_fresh. auto. Qed.

Lemma insert_grocery_list_keeps_seq (clock couple week : Z) :
  steps keeps_seq_fresh (insert_grocery_list clock couple week).
Proof.
  intros s H. apply seq_fresh_iff in H as [H1 H2]. unfold insert_grocery_list.
  destruct (negb (has_couple s couple)); [|destruct (has_grocery_list s _)];
    apply seq_fresh_iff; cbn; split; intros x Hx;
    try apply in_app_or in Hx as [Hx|[<-|[]]]; cbn;
    try (specialize (H1 x Hx)); try (specialize (H2 x Hx)); lia.
Qed.

Lemma insert_grocery_item_keeps_seq (clock : Z) (v : GroceryItemValues) :
  steps keeps_seq_fresh (insert_grocery_item clock v).
Proof.
  intros s H. apply seq_fresh_iff in H as [H1 H2]. unfold insert_grocery_item.
  repeat match goal with
         | |- context [if ?b then _ else _] => destruct b
         end;
    apply seq_fresh_iff; cbn; split; intros x Hx;
    try apply in_app_or in Hx as [Hx|[<-|[]]]; cbn;
    try (specialize (H1 x Hx)); try (specialize (H2 x Hx)); lia.
Qed.

Lemma addGroceryItem_keeps_seq (tz now : Z) (input : AddGroceryItemInput) :
  steps keeps_seq_fresh (addGroceryItem tz now input).
Proof.
  unfold addGroceryItem.
  pose proof keeps_seq_fresh_refl. pose proof keeps_seq_fresh_trans.
  step_through ltac:(first [ apply insert_grocery_list_keeps_seq
                           | apply insert_grocery_item_keeps_seq ]);
    eauto.
Qed.

Lemma toggleItemCompletion_keeps_seq (now : Z) (input : ToggleItemCompletionInput) :
  steps keeps_seq_fresh (toggleItemCompletion now input).
Proof.
  intros s H.
  destruct (item_by_id s (in_item_id input)) as [i|] eqn:F.
  - rewrite (toggle_found now input s i F).
    destruct (GroceryItem.is_completed i);
      [|destruct (has_user s (in_user_id input))]; cbn [snd]; try exact H;
      apply seq_fresh_iff in H as [H1 H2]; apply seq_fresh_iff; cbn;
      (split; [exact H1|]); intros x Hx; apply in_map_iff in Hx as (y & <- & Hy);
      specialize (H2 y Hy);
      destruct (GroceryItem.id y =? in_item_id input); cbn; lia.
  - now rewrite (toggle_missing now input s F).
Qed.

Lemma removeGroceryItem_keeps_seq (input : RemoveGroceryItemInput) :
  steps keeps_seq_fresh (removeGroceryItem input).
Proof.
  intros s H. apply seq_fresh_iff in H as [H1 H2]. apply seq_fresh_iff.
  cbn. split; [exact H1|]. intros x Hx. apply filter_In in Hx as [Hx _].
  exact (H2 x Hx).
Qed.

(** Every item operation keeps both sequences ahead of the stored ids. *)
Lemma run_op_seq_fresh (op : item_op) (s : Store) :
  seq_fresh s = true -> seq_fresh (run_op op s) = true.
Proof.
  destruct op as [tz now input | now input | input]; cbn [run_op].
  - apply addGroceryItem_keeps_seq.
  - apply toggleItemCompletion_keeps_seq.
  - apply removeGroceryItem_keeps_seq.
Qed.

(* ================================================================== *)
(** * Further properties *)

(** ** The week as a function of the clock *)

Lemma monday_step (m d : Z) :
  (m + 4) mod 7 = 1 -> m <= d <= m + 6 ->
  d - (if (d + 4) mod 7 =? 0 then 6 else (d + 4) mod 7 - 1) = m.
Proof.
  intros Hm Hd.
  destruct ((d + 4) mod 7 =? 0) eqn:E.
  - apply Z.eqb_eq in E. Z.div_mod_to_equations. lia.
  - apply Z.eqb_neq in E. Z.div_mod_to_equations. lia.
Qed.

Lemma getCurrentWeekStart_of_day (tz now m : Z) :
  (m + 4) mod 7 = 1 ->
  m <= JsDate.Day (JsDate.LocalTime tz now) <= m + 6 ->
  getCurrentWeekStart tz now = JsDate.UTC tz (JsDate.MakeDate m 0).
Proof.
  intros Hm Hd. rewrite getCurrentWeekStart_value.
  unfold days_to_monday, JsDate.getDay, JsDate.WeekDay.
  now rewrite (monday_step m _ Hm Hd).
Qed.

Lemma Day_between (m t : Z) (k : Z) :
  0 <= k ->
  m * JsDate.msPerDay <= t < (m + k + 1) * JsDate.msPerDay ->
  m <= JsDate.Day t <= m + k.
Proof.
  unfold JsDate.Day, JsDate.msPerDay. intros Hk Ht.
  Z.div_mod_to_equations. lia.
Qed.

(** X1. The week start is the same for every instant of its week: any
    clock value from a week start up to 6 days 23:59:59.999 after it
    resolves to that week start. *)
Theorem X1_week_start_constant_on_week (tz now now' : Z) :
  getCurrentWeekStart tz now <= now'
    <= getCurrentWeekStart tz now + (6 * JsDate.msPerDay + JsDate.MakeTime 23 59 59 999) ->
  getCurrentWeekStart tz now' = getCurrentWeekStart tz now.
Proof.
  intros H.
  rewrite (getCurrentWeekStart_value tz now) in *.
  apply getCurrentWeekStart_of_day.
  - apply monday_weekday.
  - apply Day_between; [lia|].
    unfold JsDate.UTC, JsDate.MakeDate, JsDate.LocalTime, JsDate.MakeTime,
      JsDate.msPerDay in *.
    lia.
Qed.

Lemma X1_week_start_constant_on_week_witness :
  getCurrentWeekStart utc_minus_5 (wednesday_noon_west + 4 * 86400000)
  = getCurrentWeekStart utc_minus_5 wednesday_noon_west.
Proof.
  apply (X1_week_start_constant_on_week utc_minus_5 wednesday_noon_west
           (wednesday_noon_west + 4 * 86400000)).
  vm_compute. split; discriminate.
Defined.


(** X3. The date both handlers derive for the week depends on the host
    zone: within a day of UTC, the date the add-item handler stores and
    looks up (and the query's lower bound) is the Monday for a host at or
    west of UTC and the Sunday before it for a host east of UTC; the
    query's upper bound is the Sunday for a host at or east of UTC and the
    Monday after it for a host west of UTC. *)
Theorem X3_week_dates_by_zone (tz now : Z) :
  - JsDate.msPerDay < tz < JsDate.msPerDay ->
  current_week tz now = monday_of tz now - (if 0 <? tz then 1 else 0)
  /\ weekStartStr tz now = current_week tz now
  /\ weekEndStr tz now = monday_of tz now + (if tz <? 0 then 7 else 6).
Proof.
  intros Htz. rewrite current_week_is_weekStartStr.
  destruct (week_bounds tz now) as [-> ->].
  unfold JsDate.msPerDay in *.
  split; [|split; [reflexivity|]].
  - destruct (0 <? tz) eqn:E; [apply Z.ltb_lt in E | apply Z.ltb_ge in E];
      Z.div_mod_to_equations; lia.
  - destruct (tz <? 0) eqn:E; [apply Z.ltb_lt in E | apply Z.ltb_ge in E];
      Z.div_mod_to_equations; lia.
Qed.

Lemma X3_week_dates_by_zone_witness :
  current_week 3600000 wednesday_noon = 19722
  /\ weekEndStr utc_minus_5 wednesday_noon_west = 19730.
Proof.
  split.
  - apply (proj1 (X3_week_dates_by_zone 3600000 wednesday_noon
                    (conj eq_refl eq_refl))).
  - apply (proj2 (proj2 (X3_week_dates_by_zone utc_minus_5 wednesday_noon_west
                           (conj eq_refl eq_refl)))).
Defined.

(** ** Add item: what a successful call wrote *)

Lemma truthy_cases (n : option Z) :
  truthy n = true -> exists k, n = Some k /\ k <> 0.
Proof.
  destruct n as [k|]; [|discriminate]. simpl. intros H.
  exists k. split; [reflexivity|]. apply negb_true_iff in H. now apply Z.eqb_neq.
Qed.

(** Whatever path a successful add took, it appended exactly the returned
    row, whose id is the value of the sequence, and advanced the sequence
    by one. *)
Lemma add_success_inv (tz now : Z) (input : AddGroceryItemInput) (s s1 : Store)
    (it : GroceryItem.t) :
  seq_fresh s = true ->
  addGroceryItem tz now input s = (inr (Some it), s1) ->
  it = new_item_row now input (GroceryItem.list_id it) s
  /\ grocery_items s1 = grocery_items s ++ [it]
  /\ grocery_items_id_seq s1 = grocery_items_id_seq s + 1
  /\ has_user s (in_added_by_user_id input) = true
  /\ has_category s (in_category_id input) = true.
Proof.
  intros Hfresh H.
  destruct (has_user s (in_added_by_user_id input)) eqn:Hu;
    [|rewrite (add_user_missing tz now input s Hu) in H; discriminate].
  destruct (has_category s (in_category_id input)) eqn:Hk;
    [|rewrite (add_category_missing tz now input s Hu Hk) in H; discriminate].
  destruct (truthy (in_list_id input)) eqn:Ht.
  - destruct (truthy_cases _ Ht) as (n & Hn & Hnz).
    destruct (has_grocery_list s n) eqn:Hl.
    + rewrite (add_explicit_list tz now input s Hu Hk Hfresh n Hn Hnz Hl) in H.
      injection H as <- <-. repeat split.
    + rewrite (add_list_missing tz now input s Hu Hk n Hn Hnz Hl) in H. discriminate.
  - destruct (first_couple s (in_added_by_user_id input)) as [c|] eqn:Hc;
      [|rewrite (add_no_couple tz now input s Hu Hk Ht Hc) in H; discriminate].
    destruct (lists_for s (Couple.id c) (current_week tz now)) as [|l0 rest] eqn:F.
    + pose proof (add_create tz now input s Hu Hk Hfresh c Ht Hc F) as E.
      cbv zeta in E. rewrite E in H. injection H as <- <-. repeat split.
    + rewrite (add_reuse tz now input s Hu Hk Hfresh c Ht Hc l0 rest F) in H.
      injection H as <- <-. repeat split.
Qed.



Lemma filter_all_below (l : list GroceryItem.t) (id : Z) :
  (forall i, In i l -> GroceryItem.id i < id) ->
  filter (fun i => negb (GroceryItem.id i =? id)) l = l.
Proof.
  induction l as [|x l IH]; simpl; intros H; [reflexivity|].
  assert (Hx : (GroceryItem.id x =? id) = false).
  { apply Z.eqb_neq. specialize (H x (or_introl eq_refl)). lia. }
  rewrite Hx. simpl. f_equal. apply IH. intros i Hi. apply H. now right.
Qed.

(** X5. Item ids are never reused: the id of an added item is new to the
    table; removing that item gives back the items table as it was before
    the add, and the next successful add still gets the following id, not
    the freed one. *)
Theorem X5_item_ids_not_reused (tz now tz' now' : Z)
    (input input' : AddGroceryItemInput) (s s1 s3 : Store)
    (it it' : GroceryItem.t) :
  seq_fresh s = true ->
  addGroceryItem tz now input s = (inr (Some it), s1) ->
  let s2 := snd (removeGroceryItem (mkRemoveGroceryItemInput (GroceryItem.id it)) s1) in
  addGroceryItem tz' now' input' s2 = (inr (Some it'), s3) ->
  has_grocery_item s (GroceryItem.id it) = false
  /\ fst (removeGroceryItem (mkRemoveGroceryItemInput (GroceryItem.id it)) s1)
     = inr (mkRemoveResult true)
  /\ grocery_items s2 = grocery_items s
  /\ GroceryItem.id it' = GroceryItem.id it + 1
  /\ grocery_items s3 = grocery_items s ++ [it'].
Proof.
  intros Hfresh H1 s2 H2.
  destruct (add_success_inv tz now input s s1 it Hfresh H1)
    as (Hit & Hitems & Hseq & _ & _).
  assert (Hid : GroceryItem.id it = grocery_items_id_seq s) by (now rewrite Hit).
  assert (Hbelow : forall i, In i (grocery_items s) -> GroceryItem.id i < GroceryItem.id it).
  { rewrite Hid. now apply seq_fresh_iff. }
  assert (Hfresh1 : seq_fresh s1 = true).
  { pose proof (addGroceryItem_keeps_seq tz now input s Hfresh) as K.
    now rewrite H1 in K. }
  assert (Hfresh2 : seq_fresh s2 = true)
    by (now apply removeGroceryItem_keeps_seq).
  assert (Hitems2 : grocery_items s2 = grocery_items s).
  { unfold s2. rewrite removeGroceryItem_items. cbn [rm_item_id].
    rewrite Hitems, filter_app, (filter_all_below _ _ Hbelow).
    cbn [filter]. rewrite Z.eqb_refl. cbn. apply app_nil_r. }
  destruct (add_success_inv tz' now' input' s2 s3 it' Hfresh2 H2)
    as (Hit' & Hitems' & _ & _ & _).
  split; [|split; [|split; [exact Hitems2|split]]].
  - rewrite Hid. now apply seq_fresh_items.
  - unfold removeGroceryItem, try_catch, bind, delete_grocery_items, ret.
    cbn [fst rowCount rm_item_id]. rewrite count_positive, Hitems, existsb_app.
    cbn [existsb]. rewrite Z.eqb_refl. now rewrite orb_true_r.
  - rewrite Hit'. cbn [GroceryItem.id new_item_row]. rewrite Hid.
    unfold s2. cbn. exact Hseq.
  - now rewrite Hitems', Hitems2.
Qed.

Lemma X5_item_ids_not_reused_witness :
  exists it s1 it' s3,
    addGroceryItem 0 wednesday_noon (bananas None 1) household = (inr (Some it), s1)
    /\ addGroceryItem 0 wednesday_noon (bananas None 2)
         (snd (removeGroceryItem (mkRemoveGroceryItemInput (GroceryItem.id it)) s1))
       = (inr (Some it'), s3)
    /\ GroceryItem.id it = 1
    /\ GroceryItem.id it' = 2
    /\ List.length (grocery_items s3) = 1%nat.
Proof.
  do 4 eexists.
  assert (E1 : addGroceryItem 0 wednesday_noon (bananas None 1) household
               = (inr (Some (GroceryItem.mk 1 1 1 "Bananas" (Some "2 bunches"%string)
                               false 1 None wednesday_noon None)),
                  snd (addGroceryItem 0 wednesday_noon (bananas None 1) household)))
    by reflexivity.
  split; [exact E1|].
  match type of E1 with _ = (inr (Some ?i), ?st) =>
    assert (E2 : addGroceryItem 0 wednesday_noon (bananas None 2)
                   (snd (removeGroceryItem (mkRemoveGroceryItemInput (GroceryItem.id i)) st))
                 = (inr (Some (GroceryItem.mk 2 1 1 "Bananas" (Some "2 bunches"%string)
                                 false 2 None wednesday_noon None)),
                    snd (addGroceryItem 0 wednesday_noon (bananas None 2)
                           (snd (removeGroceryItem
                                   (mkRemoveGroceryItemInput (GroceryItem.id i)) st)))))
      by reflexivity;
    pose proof (X5_item_ids_not_reused 0 wednesday_noon 0 wednesday_noon
                  (bananas None 1) (bananas None 2) household _ _ _ _
                  eq_refl E1 E2) as (_ & _ & _ & Hid & Hitems)
  end.
  split; [exact E2|]. split; [reflexivity|]. split; [exact Hid|].
  now rewrite Hitems.
Defined.

(** ** The query as a join *)

Lemma getCurrentWeekList_value (tz now : Z) (input : GetCurrentWeekListInput)
    (s : Store) :
  getCurrentWeekList tz now input s
  = (inr (week_rows tz now (in_couple_id input) s), s).
Proof. unfold getCurrentWeekList. now rewrite try_catch_rethrow. Qed.

Lemma in_rows_of_item (s : Store) (i : GroceryItem.t) (r : JoinedRow) :
  In r (rows_of_item s i)
  <-> j_grocery_items r = i
      /\ In (j_grocery_lists r) (grocery_lists s)
      /\ In (j_categories r) (categories s)
      /\ GroceryItem.list_id i = GroceryList.id (j_grocery_lists r)
      /\ GroceryItem.category_id i = Category.id (j_categories r).
Proof.
  unfold rows_of_item. rewrite in_flat_map. split.
  - intros (l & Hl & Hr). apply filter_In in Hl as [Hl El].
    apply in_map_iff in Hr as (c & <- & Hc). apply filter_In in Hc as [Hc Ec].
    apply Z.eqb_eq in El, Ec. cbn. auto.
  - intros (Hi & Hl & Hc & El & Ec). destruct r as [i' l c]. cbn in *. subst i'.
    exists l. split.
    + apply filter_In. split; [exact Hl | now apply Z.eqb_eq].
    + apply in_map_iff. exists c. split; [reflexivity|].
      apply filter_In. split; [exact Hc | now apply Z.eqb_eq].
Qed.

Lemma in_week_rows (tz now couple : Z) (s : Store) (i : GroceryItem.t)
    (l : GroceryList.t) (c : Category.t) :
  In i (grocery_items s) -> In l (grocery_lists s) -> In c (categories s) ->
  GroceryItem.list_id i = GroceryList.id l ->
  GroceryItem.category_id i = Category.id c ->
  in_window tz now couple l = true ->
  In (enrich i c) (week_rows tz now couple s).
Proof.
  intros Hi Hl Hc El Ec Hw. unfold week_rows.
  change (enrich i c) with (transform (mkJoinedRow i l c)).
  apply in_map. apply filter_In. split; [|exact Hw].
  unfold joined_rows. apply in_flat_map. exists i. split; [exact Hi|].
  apply in_rows_of_item. cbn. auto.
Qed.

Lemma week_bounds_ordered (tz now : Z) : weekStartStr tz now <= weekEndStr tz now.
Proof.
  destruct (week_bounds tz now) as [-> ->].
  apply Z.div_le_mono; unfold JsDate.msPerDay; lia.
Qed.

Lemma has_category_In (s : Store) (id : Z) :
  has_category s id = true -> exists c, In c (categories s) /\ Category.id c = id.
Proof.
  unfold has_category. intros H. apply existsb_exists in H as (c & Hc & E).
  apply Z.eqb_eq in E. eauto.
Qed.



(** ** The client's local list against the server *)

Lemma week_rows_by_item (tz now couple : Z) (s : Store) :
  week_rows tz now couple s
  = flat_map (item_week_rows tz now couple s) (grocery_items s).
Proof.
  unfold week_rows, joined_rows, item_week_rows.
  now rewrite filter_flat_map, map_of_flat_map.
Qed.

Lemma in_item_week_rows (tz now couple : Z) (s : Store) (i : GroceryItem.t)
    (r : GroceryItemWithCategory) :
  In r (item_week_rows tz now couple s i) -> exists k, r = enrich i k.
Proof.
  unfold item_week_rows. intros H. apply in_map_iff in H as (j & <- & Hj).
  apply filter_In in Hj as [Hj _]. apply in_rows_of_item in Hj as (Hi & _).
  exists (j_categories j). destruct j as [i' l c]. cbn in *. now subst i'.
Qed.

Lemma filter_keeps_all {B : Type} (q : B -> bool) (l : list B) :
  (forall b, In b l -> q b = true) -> filter q l = l.
Proof.
  induction l as [|x l IH]; intros H; [reflexivity|].
  cbn. rewrite (H x (or_introl eq_refl)). f_equal. apply IH.
  intros b Hb. apply H. now right.
Qed.

Lemma filter_drops_all {B : Type} (q : B -> bool) (l : list B) :
  (forall b, In b l -> q b = false) -> filter q l = [].
Proof.
  induction l as [|x l IH]; intros H; [reflexivity|].
  cbn. rewrite (H x (or_introl eq_refl)). apply IH.
  intros b Hb. apply H. now right.
Qed.

Section BySource.
Context {A B : Type}.

(** Filtering the rows of a [flat_map] by a property of their source. *)
Lemma filter_flat_map_by_source (g : A -> list B) (q : B -> bool) (p : A -> bool)
    (l : list A) :
  (forall a b, In a l -> In b (g a) -> q b = p a) ->
  filter q (flat_map g l) = flat_map g (filter p l).
Proof.
  induction l as [|a l IH]; intros H; [reflexivity|].
  cbn [flat_map filter]. rewrite filter_app, IH
    by (intros a' b Ha Hb; apply (H a' b); [now right | exact Hb]).
  assert (Ha : forall b, In b (g a) -> q b = p a)
    by (intros b Hb; apply (H a b); [now left | exact Hb]).
  destruct (p a) eqn:E.
  - cbn [flat_map]. f_equal. apply filter_keeps_all. exact Ha.
  - replace (filter q (g a)) with (@nil B); [reflexivity|].
    symmetry. apply filter_drops_all. exact Ha.
Qed.

(** Rewriting the sources of a [flat_map] row-wise. *)
Lemma flat_map_map_in (g : A -> list B) (u : A -> A) (T : B -> B) (l : list A) :
  (forall a, In a l -> g (u a) = map T (g a)) ->
  flat_map g (map u l) = map T (flat_map g l).
Proof.
  induction l as [|a l IH]; intros H; [reflexivity|].
  cbn [flat_map map]. rewrite map_app, (H a (or_introl eq_refl)), IH; [reflexivity|].
  intros a' Ha'. apply H. now right.
Qed.
End BySource.


Lemma unique_first (l : list GroceryItem.t) (id : Z) (i0 i : GroceryItem.t) :
  unique_ids (map GroceryItem.id l) = true ->
  hd_error (filter (fun x => GroceryItem.id x =? id) l) = Some i0 ->
  In i l -> GroceryItem.id i = id -> i = i0.
Proof.
  induction l as [|x l IH]; [intros _ _ []|].
  cbn [map unique_ids filter]. intros Hu Hf Hin Hid.
  apply andb_prop in Hu as [Hx Hl]. apply negb_true_iff in Hx.
  destruct (GroceryItem.id x =? id) eqn:E.
  - cbn in Hf. injection Hf as <-. apply Z.eqb_eq in E.
    destruct Hin as [<-|Hin]; [reflexivity|]. exfalso.
    assert (existsb (Z.eqb (GroceryItem.id x)) (map GroceryItem.id l) = true);
      [|congruence].
    apply existsb_exists. exists (GroceryItem.id i). split.
    + now apply in_map.
    + apply Z.eqb_eq. congruence.
  - destruct Hin as [<-|Hin].
    + apply Z.eqb_neq in E. contradiction.
    + now apply IH.
Qed.

Lemma rows_of_item_set (s : Store) (b : bool) (u t : option Z) (i : GroceryItem.t) :
  rows_of_item s (set_completion b u t i)
  = map (fun r => mkJoinedRow (set_completion b u t i)
                    (j_grocery_lists r) (j_categories r))
      (rows_of_item s i).
Proof.
  unfold rows_of_item. cbn [GroceryItem.list_id GroceryItem.category_id set_completion].
  rewrite map_of_flat_map. apply flat_map_ext. intros l.
  rewrite map_map. reflexivity.
Qed.

Lemma filter_map_commute {A B : Type} (f : A -> B) (p : A -> bool) (q : B -> bool)
    (l : list A) :
  (forall a, q (f a) = p a) -> filter q (map f l) = map f (filter p l).
Proof.
  intros H. induction l as [|a l IH]; [reflexivity|].
  cbn. rewrite H. destruct (p a); cbn; now rewrite IH.
Qed.

(** The query rows of an item after the server wrote its completion. *)
Lemma item_week_rows_toggled (tz now couple t id : Z) (s : Store) (i : GroceryItem.t) :
  GroceryItem.id i = id ->
  item_week_rows tz now couple s
    (set_completion (negb (GroceryItem.is_completed i))
       (if GroceryItem.is_completed i then None else Some USER_ID)
       (if GroceryItem.is_completed i then None else Some t) i)
  = map (offline_row t id) (item_week_rows tz now couple s i).
Proof.
  intros Hid. unfold item_week_rows.
  rewrite rows_of_item_set.
  rewrite (filter_map_commute _
             (fun r => in_window tz now couple (j_grocery_lists r)))
    by reflexivity.
  rewrite !map_map. apply map_ext_in. intros r Hr.
  apply filter_In in Hr as [Hr _]. apply in_rows_of_item in Hr as (Hi & _).
  destruct r as [i' l c]. cbn in Hi. subst i'.
  unfold offline_row, transform.
  cbn [j_grocery_items j_categories w_id w_is_completed GroceryItem.id
       set_completion GroceryItem.list_id GroceryItem.category_id
       GroceryItem.name GroceryItem.quantity GroceryItem.is_completed
       GroceryItem.added_by_user_id GroceryItem.completed_by_user_id
       GroceryItem.created_at GroceryItem.completed_at
       w_list_id w_category_id w_name w_quantity w_added_by_user_id
       w_completed_by_user_id w_created_at w_completed_at w_category].
  rewrite Hid, Z.eqb_refl. reflexivity.
Qed.

Lemma item_week_rows_other (tz now couple t id : Z) (s : Store) (i : GroceryItem.t) :
  GroceryItem.id i <> id ->
  map (offline_row t id) (item_week_rows tz now couple s i)
  = item_week_rows tz now couple s i.
Proof.
  intros Hid. rewrite <- (map_id (item_week_rows tz now couple s i)) at 2.
  apply map_ext_in. intros r Hr. apply in_item_week_rows in Hr as (k & ->).
  unfold offline_row.
  replace (w_id (enrich i k) =? id) with false; [reflexivity|].
  symmetry. now apply Z.eqb_neq.
Qed.

(** The query after a server toggle by the demo user, in terms of the query
    before. *)
Lemma week_rows_after_toggle (tz now couple t id : Z) (s : Store) :
  items_unique s = true ->
  has_user s USER_ID = true ->
  week_rows tz now couple
    (snd (toggleItemCompletion t (mkToggleItemCompletionInput id USER_ID) s))
  = map (offline_row t id) (week_rows tz now couple s).
Proof.
  intros Huniq Hu.
  destruct (item_by_id s id) as [i0|] eqn:F.
  - pose proof (toggle_found t (mkToggleItemCompletionInput id USER_ID) s i0 F) as E.
    cbn [in_item_id in_user_id] in E. rewrite Hu in E.
    assert (Es : snd (toggleItemCompletion t (mkToggleItemCompletionInput id USER_ID) s)
                 = toggled_store s id (negb (GroceryItem.is_completed i0))
                     (if GroceryItem.is_completed i0 then None else Some USER_ID)
                     (if GroceryItem.is_completed i0 then None else Some t)).
    { rewrite E. destruct (GroceryItem.is_completed i0); reflexivity. }
    rewrite Es, !week_rows_by_item.
    unfold toggled_store. cbn [grocery_items with_grocery_items].
    change (item_week_rows tz now couple (with_grocery_items s _ _))
      with (item_week_rows tz now couple s).
    apply flat_map_map_in. intros i Hi.
    destruct (GroceryItem.id i =? id) eqn:Eid.
    + apply Z.eqb_eq in Eid.
      assert (i = i0) by (eapply unique_first; eauto). subst i0.
      now apply item_week_rows_toggled.
    + apply Z.eqb_neq in Eid. symmetry. now apply item_week_rows_other.
  - rewrite (toggle_missing t (mkToggleItemCompletionInput id USER_ID) s F).
    cbn [snd]. rewrite week_rows_by_item.
    rewrite <- (map_id (flat_map _ _)) at 1.
    apply map_ext_in. intros r Hr. apply in_flat_map in Hr as (i & Hi & Hr).
    apply in_item_week_rows in Hr as (k & ->).
    unfold offline_row.
    replace (w_id (enrich i k) =? id) with false; [reflexivity|].
    symmetry. apply Z.eqb_neq. intros Hid.
    unfold item_by_id in F.
    assert (Hex : existsb (fun x => GroceryItem.id x =? id) (grocery_items s) = true).
    { apply existsb_exists. exists i. split; [exact Hi | now apply Z.eqb_eq]. }
    destruct (filter_some _ _ Hex) as (x & rest & Fx & _).
    rewrite Fx in F. discriminate.
Qed.





(** ** Stepping through the couple and list handlers *)

Lemma db_eta (d : Database) : mkDatabase (tables d) (couples_id_seq d) = d.
Proof. destruct d; reflexivity. Qed.

Lemma try_catchD_rethrow {A : Type} (body : MD A) (d : Database) :
  try_catchD body (fun error => throwD error) d = body d.
Proof. unfold try_catchD, throwD. destruct (body d) as [[e|a] d']; reflexivity. Qed.

Lemma bindD_lift_select {T B : Type} (table : Store -> list T) (p : T -> bool)
    (k : list T -> MD B) (d : Database) :
  bindD (lift (select_from table p)) k d = k (filter p (table (tables d))) d.
Proof. unfold bindD, lift, select_from. now rewrite db_eta. Qed.

Lemma bindD_throw_if {B : Type} (b : bool) (t : thrown) (k : unit -> MD B)
    (d : Database) :
  bindD (throw_ifD b t) k d = if b then (inl t, d) else k tt d.
Proof. destruct b; reflexivity. Qed.

Lemma find_snoc {T : Type} (p : T -> bool) (l : list T) (x : T) :
  find p (l ++ [x])
  = match find p l with
    | Some y => Some y
    | None => if p x then Some x else None
    end.
Proof.
  induction l as [|y l IH]; cbn; [reflexivity|].
  destruct (p y); [reflexivity | exact IH].
Qed.

(** ** Create couple *)





(** ** Create grocery list *)

Lemma toISODate_dateOfISODate (day : Z) :
  JsDate.toISODate (dateOfISODate day) = day.
Proof.
  unfold JsDate.toISODate, dateOfISODate.
  apply JsDateFacts.Day_MakeDate. unfold JsDate.msPerDay. lia.
Qed.

Lemma createGroceryList_missing (clock : Z) (input : CreateGroceryListInput)
    (d : Database) :
  has_couple (tables d) (cl_couple_id input) = false ->
  createGroceryList clock input d = (inl (CoupleDoesNotExist (cl_couple_id input)), d).
Proof.
  intros H. unfold createGroceryList. rewrite try_catchD_rethrow.
  rewrite bindD_lift_select, bindD_throw_if, length_filter_zero.
  unfold has_couple in H. now rewrite H.
Qed.

Lemma createGroceryList_inserted (clock : Z) (input : CreateGroceryListInput)
    (d : Database) :
  has_couple (tables d) (cl_couple_id input) = true ->
  has_grocery_list (tables d) (grocery_lists_id_seq (tables d)) = false ->
  let row := new_list_row clock (cl_couple_id input)
               (JsDate.toISODate (cl_week_start input)) (tables d) in
  createGroceryList clock input d
  = (inr (with_date row),
     mkDatabase
       (with_grocery_lists (tables d) (grocery_lists (tables d) ++ [row])
          (grocery_lists_id_seq (tables d) + 1))
       (couples_id_seq d)).
Proof.
  intros Hc Hpk row. unfold createGroceryList. rewrite try_catchD_rethrow.
  rewrite bindD_lift_select, bindD_throw_if, length_filter_zero.
  pose proof Hc as Hc'. unfold has_couple in Hc'. rewrite Hc'. cbn [negb].
  unfold bindD, lift, insert_grocery_list. rewrite Hc, Hpk. reflexivity.
Qed.



(** X13. The [Date] both list handlers return for a stored week start is
    00:00 UTC of the stored date.  Converting it back to a date gives the
    stored date, in every zone; read in local time on a host within a day
    of UTC it falls on the stored date at or east of UTC, and on the day
    before it west of UTC. *)
Theorem X13_returned_week_start (tz : Z) (l : GroceryList.t) :
  - JsDate.msPerDay < tz < JsDate.msPerDay ->
  JsDate.toISODate (Schema.week_start (with_date l)) = GroceryList.week_start l
  /\ JsDate.TimeWithinDay (Schema.week_start (with_date l)) = 0
  /\ JsDate.Day (JsDate.LocalTime tz (Schema.week_start (with_date l)))
     = GroceryList.week_start l - (if tz <? 0 then 1 else 0).
Proof.
  intros Htz. cbn [with_date Schema.week_start].
  split; [apply toISODate_dateOfISODate|].
  split.
  - unfold dateOfISODate. apply JsDateFacts.TimeWithinDay_MakeDate.
    unfold JsDate.msPerDay. lia.
  - unfold dateOfISODate, JsDate.LocalTime, JsDate.MakeDate, JsDate.Day,
      JsDate.msPerDay in *.
    destruct (tz <? 0) eqn:E; [apply Z.ltb_lt in E | apply Z.ltb_ge in E];
      Z.div_mod_to_equations; lia.
Qed.

Lemma X13_returned_week_start_witness :
  JsDate.Day (JsDate.LocalTime utc_minus_5 (Schema.week_start (with_date monday_list)))
  = 19722
  /\ JsDate.getDate utc_minus_5 (Schema.week_start (with_date monday_list)) = 31.
Proof.
  split.
  - exact (proj2 (proj2 (X13_returned_week_start utc_minus_5 monday_list
                           (conj eq_refl eq_refl)))).
  - reflexivity.
Defined.

(** ** Get grocery lists *)

Section OrderBy.
Context {R : Type}.
Variable key : R -> Z.

Lemma insert_desc_perm (x : R) (l : list R) :
  Permutation (insert_desc key x l) (x :: l).
Proof.
  induction l as [|y l IH]; cbn; [reflexivity|].
  destruct (key y <=? key x); [reflexivity|].
  rewrite IH. apply perm_swap.
Qed.

Lemma order_by_desc_perm (l : list R) : Permutation (order_by_desc key l) l.
Proof.
  induction l as [|x l IH]; cbn; [reflexivity|].
  fold (order_by_desc key l). rewrite insert_desc_perm. now constructor.
Qed.

Lemma insert_desc_sorted (x : R) (l : list R) :
  Sorted (fun a b => key b <= key a) l ->
  Sorted (fun a b => key b <= key a) (insert_desc key x l).
Proof.
  induction l as [|y l IH]; cbn; intros Hs.
  - repeat constructor.
  - destruct (key y <=? key x) eqn:E.
    + apply Z.leb_le in E. constructor; [exact Hs|]. now constructor.
    + apply Z.leb_gt in E. inversion Hs as [|? ? Hs' Hhd]; subst.
      constructor; [now apply IH|].
      destruct l as [|z l]; cbn.
      * constructor. lia.
      * destruct (key z <=? key x); constructor; [lia|].
        now inversion Hhd.
Qed.

Lemma order_by_desc_sorted (l : list R) :
  StronglySorted (fun a b => key b <= key a) (order_by_desc key l).
Proof.
  apply Sorted_StronglySorted.
  - intros a b c Hab Hbc. lia.
  - induction l as [|x l IH]; cbn; [constructor|].
    now apply insert_desc_sorted.
Qed.
End OrderBy.

Lemma StronglySorted_map {A B : Type} (f : A -> B) (ra : A -> A -> Prop)
    (rb : B -> B -> Prop) (l : list A) :
  (forall a b, ra a b -> rb (f a) (f b)) ->
  StronglySorted ra l -> StronglySorted rb (map f l).
Proof.
  intros H. induction 1 as [|a l Hs IH Hall]; cbn; constructor; [exact IH|].
  apply Forall_map. eapply Forall_impl; [|exact Hall]. intros b. apply H.
Qed.

Lemma getGroceryLists_value (coupleId : Z) (d : Database) :
  getGroceryLists coupleId d
  = (inr (map with_date
            (order_by_desc GroceryList.week_start
               (filter (fun l => GroceryList.couple_id l =? coupleId)
                  (grocery_lists (tables d))))),
     d).
Proof.
  unfold getGroceryLists. rewrite try_catchD_rethrow.
  unfold bindD, lift, select_from_order_by_desc, retD. now rewrite db_eta.
Qed.


Lemma seq_fresh_after_list (s : Store) (clock couple week : Z) :
  seq_fresh s = true ->
  seq_fresh
    (with_grocery_lists s (grocery_lists s ++ [new_list_row clock couple week s])
       (grocery_lists_id_seq s + 1)) = true.
Proof.
  intros H. apply seq_fresh_iff in H as [H1 H2]. apply seq_fresh_iff. cbn.
  split; [|exact H2]. intros l Hl.
  apply in_app_or in Hl as [Hl|[<-|[]]]; [specialize (H1 l Hl)|cbn]; lia.
Qed.

Lemma lists_for_after_list (s : Store) (clock couple week : Z) :
  lists_for
    (with_grocery_lists s (grocery_lists s ++ [new_list_row clock couple week s])
       (grocery_lists_id_seq s + 1))
    couple week
  = lists_for s couple week ++ [new_list_row clock couple week s].
Proof.
  unfold lists_for. cbn [grocery_lists with_grocery_lists].
  rewrite filter_app. cbn. now rewrite !Z.eqb_refl.
Qed.



(** ** The client's current-week list *)

Lemma find_unique {T : Type} (p : T -> bool) (l : list T) (x : T) :
  (exists y, In y l /\ p y = true) ->
  (forall y, In y l -> p y = true -> y = x) ->
  find p l = Some x.
Proof.
  intros (y & Hy & Py) Huniq.
  destruct (find p l) as [z|] eqn:F.
  - apply find_some in F as [Hz Pz]. f_equal. now apply Huniq.
  - pose proof (find_none _ _ F y Hy). congruence.
Qed.

Lemma find_absent {T : Type} (p : T -> bool) (l : list T) :
  (forall y, In y l -> p y = false) -> find p l = None.
Proof.
  intros H. destruct (find p l) as [z|] eqn:F; [|reflexivity].
  apply find_some in F as [Hz Pz]. rewrite (H z Hz) in Pz. discriminate.
Qed.

(** The lists the client looks through, and what matches the week. *)
Lemma in_couple_lists (coupleId day : Z) (s : Store) (r : Schema.GroceryList) :
  In r (map with_date
          (order_by_desc GroceryList.week_start
             (filter (fun l => GroceryList.couple_id l =? coupleId) (grocery_lists s))))
  /\ (JsDate.toISODate (Schema.week_start r) =? day) = true
  <-> exists l, In l (lists_for s coupleId day) /\ r = with_date l.
Proof.
  split.
  - intros [Hr Hd]. apply in_map_iff in Hr as (l & <- & Hl).
    apply (Permutation_in _ (order_by_desc_perm GroceryList.week_start _)) in Hl.
    apply filter_In in Hl as [Hl Hc].
    cbn in Hd. rewrite toISODate_dateOfISODate in Hd.
    exists l. split; [|reflexivity].
    unfold lists_for. apply filter_In. split; [exact Hl|]. now rewrite Hc, Hd.
  - intros (l & Hl & ->). unfold lists_for in Hl.
    apply filter_In in Hl as [Hl Hp]. apply andb_prop in Hp as [Hc Hd]. split.
    + apply in_map.
      apply (Permutation_in _ (Permutation_sym (order_by_desc_perm GroceryList.week_start _))).
      apply filter_In. split; assumption.
    + cbn. now rewrite toISODate_dateOfISODate.
Qed.

Lemma ensureCurrentWeekList_value (tz now clock : Z) (d : Database) :
  ensureCurrentWeekList tz now clock d
  = match find (fun list => JsDate.toISODate (Schema.week_start list)
                            =? weekStartStr tz now)
            (map with_date
               (order_by_desc GroceryList.week_start
                  (filter (fun l => GroceryList.couple_id l =? COUPLE_ID)
                     (grocery_lists (tables d)))))
    with
    | Some list => (inr (list, false), d)
    | None =>
        match createGroceryList clock
                (mkCreateGroceryListInput COUPLE_ID (currentWeekStart tz now)) d
        with
        | (inr newList, d') => (inr (newList, false), d')
        | (inl _, d') => (inr (createOfflineCurrentWeekList tz now, true), d')
        end
    end.
Proof.
  unfold ensureCurrentWeekList, try_catchD. unfold bindD at 1.
  rewrite getGroceryLists_value. unfold weekStartStr.
  destruct (find _ _); [reflexivity|].
  unfold bindD. destruct (createGroceryList _ _ d) as [[e|r] d']; reflexivity.
Qed.



(** ** What the add-item schema lets through *)

(** X17. The add-item input schema accepts an object exactly when
    [list_id], [category_id] and [added_by_user_id] are numbers (zero
    included), [name] is a non-empty text and [quantity] is absent, null or
    a text (the empty text included); other properties are ignored.  What
    is not an object is refused. *)
Theorem X17_add_item_schema (fields : list (string * Zod.JsValue)) :
  (Zod.accepts addGroceryItemInputSchema (Zod.JObject fields) = true
   <-> exists l c u name,
         Zod.prop_of fields "list_id" = Zod.JNumber l
         /\ Zod.prop_of fields "category_id" = Zod.JNumber c
         /\ Zod.prop_of fields "added_by_user_id" = Zod.JNumber u
         /\ Zod.prop_of fields "name" = Zod.JString name
         /\ name <> ""%string
         /\ (Zod.prop_of fields "quantity" = Zod.JUndefined
             \/ Zod.prop_of fields "quantity" = Zod.JNull
             \/ exists q, Zod.prop_of fields "quantity" = Zod.JString q))
  /\ Zod.accepts addGroceryItemInputSchema Zod.JUndefined = false
  /\ Zod.accepts addGroceryItemInputSchema Zod.JNull = false
  /\ (forall n, Zod.accepts addGroceryItemInputSchema (Zod.JNumber n) = false)
  /\ (forall t, Zod.accepts addGroceryItemInputSchema (Zod.JString t) = false).
Proof.
  split; [|repeat split].
  unfold addGroceryItemInputSchema. cbn [Zod.accepts]. split.
  - intros H.
    destruct (Zod.prop_of fields "list_id") as [| | |l| |]; try discriminate.
    destruct (Zod.prop_of fields "category_id") as [| | |c| |]; try discriminate.
    destruct (Zod.prop_of fields "name") as [| | | |name|]; try discriminate.
    destruct (Zod.prop_of fields "added_by_user_id") as [| | |u| |] eqn:Eu;
      try (destruct (Zod.prop_of fields "quantity"), name; discriminate).
    exists l, c, u, name. repeat split.
    + intros ->. discriminate.
    + destruct (Zod.prop_of fields "quantity") as [| | | |q|];
        try (destruct name; discriminate); eauto.
  - intros (l & c & u & name & -> & -> & -> & -> & Hname & Hq).
    destruct name as [|a name]; [contradiction|].
    destruct Hq as [-> | [-> | (q & ->)]]; reflexivity.
Qed.

(** ** Keys of the items table *)

Lemma unique_ids_snoc (l : list Z) (x : Z) :
  unique_ids l = true -> (forall y, In y l -> y < x) -> unique_ids (l ++ [x]) = true.
Proof.
  induction l as [|a l IH]; cbn; intros Hu Hlt; [reflexivity|].
  apply andb_prop in Hu as [Ha Hl]. apply andb_true_intro. split.
  - rewrite existsb_app. cbn. apply negb_true_iff in Ha. rewrite Ha. cbn.
    rewrite orb_false_r. apply negb_true_iff, Z.eqb_neq.
    specialize (Hlt a (or_introl eq_refl)). lia.
  - apply IH; [exact Hl|]. intros y Hy. apply Hlt. now right.
Qed.

Lemma unique_ids_filter (p : GroceryItem.t -> bool) (l : list GroceryItem.t) :
  unique_ids (map GroceryItem.id l) = true ->
  unique_ids (map GroceryItem.id (filter p l)) = true.
Proof.
  induction l as [|a l IH]; cbn; intros Hu; [reflexivity|].
  apply andb_prop in Hu as [Ha Hl].
  destruct (p a); cbn; [|now apply IH].
  apply andb_true_intro. split; [|now apply IH].
  apply negb_true_iff. apply negb_true_iff in Ha.
  destruct (existsb _ (map GroceryItem.id (filter p l))) eqn:E; [|reflexivity].
  apply existsb_exists in E as (y & Hy & Ey).
  apply in_map_iff in Hy as (i & <- & Hi). apply filter_In in Hi as [Hi _].
  rewrite <- Ha. symmetry. apply existsb_exists. exists (GroceryItem.id i).
  split; [now apply in_map | exact Ey].
Qed.

Lemma keeps_item_keys_refl (s : Store) : keeps_item_keys s s.
Proof. intros H. exact H. Qed.

Lemma keeps_item_keys_trans (s1 s2 s3 : Store) :
  keeps_item_keys s1 s2 -> keeps_item_keys s2 s3 -> keeps_item_keys s1 s3.
Proof. unfold keeps_item_keys. auto. Qed.

Lemma insert_grocery_list_keeps_keys (clock couple week : Z) :
  steps keeps_item_keys (insert_grocery_list clock couple week).
Proof.
  intros s H. unfold insert_grocery_list.
  destruct (negb (has_couple s couple)); [exact H|].
  destruct (has_grocery_list s _); exact H.
Qed.

Lemma insert_grocery_item_keeps_keys (clock : Z) (v : GroceryItemValues) :
  steps keeps_item_keys (insert_grocery_item clock v).
Proof.
  intros s [Hu Hb]. unfold insert_grocery_item.
  repeat match goal with
         | |- context [if ?b then _ else _] =>
             destruct b;
             [split; [exact Hu | cbn; intros i Hi; specialize (Hb i Hi); lia]|]
         end.
  split.
  - unfold items_unique in *. cbn. rewrite map_app. cbn.
    apply unique_ids_snoc; [exact Hu|].
    intros y Hy. apply in_map_iff in Hy as (i & <- & Hi). now apply Hb.
  - cbn. intros i Hi. apply in_app_or in Hi as [Hi|[<-|[]]].
    + specialize (Hb i Hi). lia.
    + cbn. lia.
Qed.

Lemma addGroceryItem_keeps_keys (tz now : Z) (input : AddGroceryItemInput) :
  steps keeps_item_keys (addGroceryItem tz now input).
Proof.
  unfold addGroceryItem.
  pose proof keeps_item_keys_refl. pose proof keeps_item_keys_trans.
  step_through ltac:(first [ apply insert_grocery_list_keeps_keys
                           | apply insert_grocery_item_keeps_keys ]);
    eauto.
Qed.

Lemma run_op_keeps_keys (op : item_op) (s : Store) :
  item_keys_ok s -> item_keys_ok (run_op op s).
Proof.
  destruct op as [tz now input | now input | input]; cbn [run_op].
  - apply addGroceryItem_keeps_keys.
  - intros [Hu Hb].
    destruct (item_by_id s (in_item_id input)) as [i|] eqn:F.
    + rewrite (toggle_found now input s i F).
      assert (Hids : forall b u t,
                 map GroceryItem.id
                   (map (fun x => if GroceryItem.id x =? in_item_id input
                                  then set_completion b u t x else x)
                      (grocery_items s))
                 = map GroceryItem.id (grocery_items s)).
      { intros b u t. rewrite map_map. apply map_ext. intros x.
        destruct (GroceryItem.id x =? in_item_id input); reflexivity. }
      destruct (GroceryItem.is_completed i);
        [|destruct (has_user s (in_user_id input))]; cbn [snd];
        try (split; assumption);
        (split;
         [ unfold items_unique, toggled_store; cbn; now rewrite Hids
         | unfold toggled_store; cbn; intros x Hx;
           apply in_map_iff in Hx as (y & <- & Hy); specialize (Hb y Hy);
           destruct (GroceryItem.id y =? in_item_id input); cbn; lia ]).
    + rewrite (toggle_missing now input s F). split; assumption.
  - intros [Hu Hb]. split.
    + unfold items_unique. rewrite removeGroceryItem_items.
      now apply unique_ids_filter.
    + rewrite removeGroceryItem_items. intros i Hi.
      apply filter_In in Hi as [Hi _]. cbn. now apply Hb.
Qed.

(** X18. In every store reached from a store without items by the item
    operations, item ids are pairwise distinct and below the sequence, so a
    lookup by id returns the very row: the first row selected by the id of
    a stored row is that row. *)
Theorem X18_item_ids_identify_rows (s : Store) (i : GroceryItem.t) :
  reachable s ->
  In i (grocery_items s) ->
  items_unique s = true
  /\ GroceryItem.id i < grocery_items_id_seq s
  /\ item_by_id s (GroceryItem.id i) = Some i.
Proof.
  intros Hr Hi.
  assert (Hok : item_keys_ok s).
  { clear i Hi. induction Hr as [s Hs | s op _ IH].
    - split; [unfold items_unique; now rewrite Hs | rewrite Hs; intros i []].
    - now apply run_op_keeps_keys. }
  destruct Hok as [Hu Hb]. split; [exact Hu|]. split; [now apply Hb|].
  unfold item_by_id.
  assert (Hex : existsb (fun x => GroceryItem.id x =? GroceryItem.id i)
                  (grocery_items s) = true).
  { apply existsb_exists. exists i. split; [exact Hi | apply Z.eqb_refl]. }
  destruct (filter_some _ _ Hex) as (x & rest & F & _). rewrite F. cbn. f_equal.
  symmetry. apply (unique_first (grocery_items s) (GroceryItem.id i) x i Hu);
    [now rewrite F | exact Hi | reflexivity].
Qed.

Lemma X18_item_ids_identify_rows_witness :
  let s := run_op (OpAdd 0 wednesday_noon (bananas None 2))
             (run_op (OpAdd 0 wednesday_noon (bananas None 1)) household) in
  let i := GroceryItem.mk 2 1 1 "Bananas" (Some "2 bunches"%string) false 2
             None wednesday_noon None in
  item_by_id s (GroceryItem.id i) = Some i.
Proof.
  intros s i.
  assert (Hs : reachable s).
  { unfold s. apply reachable_step, reachable_step, reachable_init. reflexivity. }
  assert (Hi : In i (grocery_items s)) by (vm_compute; right; left; reflexivity).
  exact (proj2 (proj2 (X18_item_ids_identify_rows s i Hs Hi))).
Defined.

(** ** The query, in every zone *)

